(** * WeatherWise: the decision logic (logic.js), the forecast helpers
      (app.js) and the proxy routes (server.js), embedded and checked
      against the specification.

    The program is JavaScript.  Its values are dynamically typed and its
    numbers are IEEE 754 binary64 values.  The embedding keeps the dynamic
    typing (a tagged union [value], the conversions [ToNumber], [truthy],
    the operators [||] and [??], optional chaining) and reads the numbers in
    two ways.

    [Num], and the functions of [Logic] over it, take a finite number for
    the rational it denotes and compute exactly; the not-a-number value and
    the two infinities are kept, signed zero and rounding are not.  This
    reading serves the properties of order, of range and of the branch
    taken.

    [Double], and the impact score of [DoubleLogic] over it, take a number
    for a binary64 value and round every operation to the nearest value,
    ties to even.  This reading serves where the exact value of a result is
    stated. *)

From Stdlib Require Import ZArith QArith Qround Qabs Lia Lqa.
From Stdlib Require Import Bool List Ascii String DecimalString.
From Stdlib Require SpecFloat.
Import ListNotations.

Local Open Scope Z_scope.
Local Open Scope Q_scope.
Local Open Scope string_scope.
Local Open Scope list_scope.

(** ** Numbers *)

Module Num.

Inductive num : Type :=
| NaN
| NInf
| Fin (q : Q)
| PInf.

Definition of_Z (z : Z) : num := Fin (inject_Z z).

Definition isNaN (a : num) : bool :=
  match a with NaN => true | _ => false end.

(** [a < b] of the language: false as soon as one side is not a number. *)
Definition lt (a b : num) : bool :=
  match a, b with
  | NaN, _ | _, NaN => false
  | NInf, NInf => false
  | NInf, _ => true
  | _, NInf => false
  | PInf, _ => false
  | Fin _, PInf => true
  | Fin p, Fin q => negb (Qle_bool q p)
  end.

(** [a <= b] of the language. *)
Definition le (a b : num) : bool :=
  match a, b with
  | NaN, _ | _, NaN => false
  | NInf, _ => true
  | _, NInf => false
  | _, PInf => true
  | PInf, _ => false
  | Fin p, Fin q => Qle_bool p q
  end.

Definition gt (a b : num) : bool := lt b a.
Definition ge (a b : num) : bool := le b a.

(** Strict equality [===] on numbers (and SameValueZero away from NaN). *)
Definition eqb (a b : num) : bool :=
  match a, b with
  | NInf, NInf | PInf, PInf => true
  | Fin p, Fin q => Qeq_bool p q
  | _, _ => false
  end.

Definition sign (q : Q) : comparison := (0 ?= q)%Q.

Definition neg (a : num) : num :=
  match a with
  | NaN => NaN
  | NInf => PInf
  | PInf => NInf
  | Fin q => Fin (- q)
  end.

Definition add (a b : num) : num :=
  match a, b with
  | NaN, _ | _, NaN => NaN
  | PInf, NInf | NInf, PInf => NaN
  | PInf, _ | _, PInf => PInf
  | NInf, _ | _, NInf => NInf
  | Fin p, Fin q => Fin (p + q)
  end.

Definition sub (a b : num) : num := add a (neg b).

(** An infinity scaled by a finite factor. *)
Definition scale_inf (positive : bool) (q : Q) : num :=
  match sign q with
  | Eq => NaN
  | Lt => if positive then PInf else NInf
  | Gt => if positive then NInf else PInf
  end.

Definition mul (a b : num) : num :=
  match a, b with
  | NaN, _ | _, NaN => NaN
  | PInf, PInf | NInf, NInf => PInf
  | PInf, NInf | NInf, PInf => NInf
  | PInf, Fin q | Fin q, PInf => scale_inf true q
  | NInf, Fin q | Fin q, NInf => scale_inf false q
  | Fin p, Fin q => Fin (p * q)
  end.

Definition div (a b : num) : num :=
  match a, b with
  | NaN, _ | _, NaN => NaN
  | (PInf | NInf), (PInf | NInf) => NaN
  | PInf, Fin q => match sign q with Gt => NInf | _ => PInf end
  | NInf, Fin q => match sign q with Gt => PInf | _ => NInf end
  | Fin _, (PInf | NInf) => Fin 0
  | Fin p, Fin q =>
      match sign q with
      | Eq => scale_inf true p
      | _ => Fin (p / q)
      end
  end.

(** [Math.max] and [Math.min] of two arguments. *)
Definition max (a b : num) : num :=
  match a, b with
  | NaN, _ | _, NaN => NaN
  | _, _ => if lt a b then b else a
  end.

Definition min (a b : num) : num :=
  match a, b with
  | NaN, _ | _, NaN => NaN
  | _, _ => if lt b a then b else a
  end.

(** [Math.round]: the nearest integer, halves towards plus infinity. *)
Definition round (a : num) : num :=
  match a with
  | Fin q => of_Z (Qfloor (q + (1 # 2)))
  | _ => a
  end.

(** [Math.floor]. *)
Definition floor (a : num) : num :=
  match a with
  | Fin q => of_Z (Qfloor q)
  | _ => a
  end.

End Num.
Export Num.

Declare Scope num_scope.
Delimit Scope num_scope with num.
Bind Scope num_scope with num.
Notation "a <? b" := (Num.lt a b) : num_scope.
Notation "a <=? b" := (Num.le a b) : num_scope.
Notation "a >? b" := (Num.gt a b) : num_scope.
Notation "a >=? b" := (Num.ge a b) : num_scope.
Notation "a + b" := (Num.add a b) : num_scope.
Notation "a - b" := (Num.sub a b) : num_scope.
Notation "a * b" := (Num.mul a b) : num_scope.
Notation "a / b" := (Num.div a b) : num_scope.

Definition num_to_Z (a : num) : option Z :=
  match a with
  | Fin (Qmake z 1) => Some z
  | _ => None
  end.

Number Notation num Num.of_Z num_to_Z : num_scope.

(** ** Strings

    A string is its sequence of bytes (UTF-8).  The keywords the program
    searches for are ASCII, and no byte of a multi-byte character is ASCII, so
    substring search on bytes agrees with the language's search on code units.
    [toLowerCase] lowers the ASCII letters and leaves every other byte as it
    is; the letters outside ASCII that the language lowers do not produce a
    keyword that was not there. *)

Definition lower_ascii (c : ascii) : ascii :=
  let n := nat_of_ascii c in
  if ((65 <=? n) && (n <=? 90))%nat then ascii_of_nat (n + 32) else c.

Fixpoint toLowerCase (s : string) : string :=
  match s with
  | EmptyString => EmptyString
  | String c r => String (lower_ascii c) (toLowerCase r)
  end.

(** [s.includes(pat)]. *)
Fixpoint includes (s pat : string) : bool :=
  if prefix pat s then true
  else match s with
       | EmptyString => false
       | String _ r => includes r pat
       end.

(** ** Reading a number out of a string (the language's [Number(string)]) *)

Module StrNum.

Definition digit (base : nat) (c : ascii) : option nat :=
  let n := nat_of_ascii c in
  let d :=
    if ((48 <=? n) && (n <=? 57))%nat then Some (n - 48)%nat
    else if ((97 <=? n) && (n <=? 102))%nat then Some (n - 87)%nat
    else if ((65 <=? n) && (n <=? 70))%nat then Some (n - 55)%nat
    else None in
  match d with
  | Some k => if (k <? base)%nat then Some k else None
  | None => None
  end.

(** Leading white space and line terminators, multi-byte ones included. *)
Fixpoint skip_ws (s : string) : string :=
  match s with
  | String "009" r | String "010" r | String "011" r | String "012" r
  | String "013" r | String " " r => skip_ws r
  | String "194" (String "160" r) => skip_ws r
  | String "225" (String "154" (String "128" r)) => skip_ws r
  | String "226" (String "128" (String c r)) =>
      let n := nat_of_ascii c in
      if (((128 <=? n) && (n <=? 138)) || (n =? 168) || (n =? 169) || (n =? 175))%nat
      then skip_ws r else s
  | String "226" (String "129" (String "159" r)) => skip_ws r
  | String "227" (String "128" (String "128" r)) => skip_ws r
  | String "239" (String "187" (String "191" r)) => skip_ws r
  | _ => s
  end.

(** The longest run of digits in [base] at the head of [s]: the number read
    so far, how many digits were read, and the rest. *)
Fixpoint digits (base : nat) (s : string) (acc : Z) (count : nat)
  : Z * nat * string :=
  match s with
  | String c r =>
      match digit base c with
      | Some d => digits base r (acc * Z.of_nat base + Z.of_nat d)%Z (S count)
      | None => (acc, count, s)
      end
  | EmptyString => (acc, count, s)
  end.

(** [m * 10^e]. *)
Definition scale10 (m e : Z) : Q :=
  if (0 <=? e)%Z then inject_Z (m * 10 ^ e)
  else Qmake m (Z.to_pos (10 ^ (- e))).

Definition sign_of (s : string) : bool * string :=
  match s with
  | String "+" r => (false, r)
  | String "-" r => (true, r)
  | _ => (false, s)
  end.

Definition signed (negative : bool) (a : num) : num :=
  if negative then Num.neg a else a.

(** An optional exponent part; [None] when an exponent is started and has no
    digit. *)
Definition exponent (s : string) : option (Z * string) :=
  match s with
  | String "e" r | String "E" r =>
      let (negative, r1) := sign_of r in
      match digits 10 r1 0 0 with
      | (_, O, _) => None
      | (e, _, r2) => Some (if negative then (- e)%Z else e, r2)
      end
  | _ => Some (0%Z, s)
  end.

Definition decimal (s : string) : option (Q * string) :=
  let '(i, ni, r1) := digits 10 s 0 0 in
  let '(m, nf, r2) :=
    match r1 with
    | String "." r => let '(m, nf, r2) := digits 10 r i 0 in (m, nf, r2)
    | _ => (i, O, r1)
    end in
  match (ni + nf)%nat with
  | O => None
  | _ =>
      match exponent r2 with
      | Some (e, r3) => Some (scale10 m (e - Z.of_nat nf), r3)
      | None => None
      end
  end.

Definition radix (base : nat) (s : string) : option (Q * string) :=
  match digits base s 0 0 with
  | (_, O, _) => None
  | (m, _, r) => Some (inject_Z m, r)
  end.

Definition literal (s : string) : option (num * string) :=
  let fin (p : option (Q * string)) :=
    match p with Some (q, r) => Some (Fin q, r) | None => None end in
  match s with
  | String "0" (String "x" r) | String "0" (String "X" r) => fin (radix 16 r)
  | String "0" (String "o" r) | String "0" (String "O" r) => fin (radix 8 r)
  | String "0" (String "b" r) | String "0" (String "B" r) => fin (radix 2 r)
  | _ =>
      let (negative, r) := sign_of s in
      if prefix "Infinity" r
      then Some (signed negative PInf, substring 8 (length r - 8) r)
      else match decimal r with
           | Some (q, r') => Some (signed negative (Fin q), r')
           | None => None
           end
  end.

Definition StringToNumber (s : string) : num :=
  match skip_ws s with
  | EmptyString => 0%num
  | t =>
      match literal t with
      | Some (n, r) =>
          match skip_ws r with
          | EmptyString => n
          | _ => NaN
          end
      | None => NaN
      end
  end.

End StrNum.
Export StrNum.


(** ** Values

    Where the program applies [<], [<=], [>], [>=], [*], [-] or [/] to a
    value and a number, the value is converted by [ToNumber] first; the
    embedding writes the conversion out. *)

#[local] Set Warnings "-register-all".

Inductive value : Type :=
| VUndef
| VNull
| VBool (b : bool)
| VNum (n : num)
| VStr (s : string)
| VArr (xs : list value)
| VObj (props : list (string * value)).

(** A property key: a name ([.main], [["1h"]]) or an index ([[0]]). *)
Inductive key : Type :=
| KName (name : string)
| KIndex (i : nat).

Definition key_string (k : key) : string :=
  match k with
  | KName name => name
  | KIndex i => NilZero.string_of_uint (Nat.to_uint i)
  end.

Fixpoint lookup (name : string) (props : list (string * value)) : value :=
  match props with
  | [] => VUndef
  | (k, v) :: rest => if String.eqb k name then v else lookup name rest
  end.

(** [v[k]] for a [v] that is neither [undefined] nor [null].  Objects hold
    their own properties only; arrays and strings have their elements and
    [length]; no name the program reads is inherited from a prototype. *)
Definition getProp (v : value) (k : key) : value :=
  match v, k with
  | VObj props, _ => lookup (key_string k) props
  | VArr xs, KIndex i => nth i xs VUndef
  | VArr xs, KName "length" => VNum (Num.of_Z (Z.of_nat (List.length xs)))
  | VStr s, KIndex i =>
      match String.get i s with
      | Some c => VStr (String c EmptyString)
      | None => VUndef
      end
  | VStr s, KName "length" => VNum (Num.of_Z (Z.of_nat (String.length s)))
  | _, _ => VUndef
  end.

Definition nullish (v : value) : bool :=
  match v with VUndef | VNull => true | _ => false end.

(** Optional chaining, [v?.k]. *)
Definition optGet (v : value) (k : key) : value :=
  if nullish v then VUndef else getProp v k.

Coercion KName : string >-> key.
Coercion KIndex : nat >-> key.
Notation "v ?. k" := (optGet v k) (at level 25, left associativity).

(** Truthiness. *)
Definition truthy (v : value) : bool :=
  match v with
  | VUndef | VNull => false
  | VBool b => b
  | VNum NaN => false
  | VNum (Fin q) => negb (Qeq_bool q 0)
  | VNum _ => true
  | VStr EmptyString => false
  | VStr _ => true
  | VArr _ | VObj _ => true
  end.

(** [a || b] and [a ?? b]. *)
Definition or_else (a b : value) : value := if truthy a then a else b.
Definition coalesce (a b : value) : value := if nullish a then b else a.

Notation "a ?? b" := (coalesce a b) (at level 50, left associativity).

(** [typeof v === "number"]. *)
Definition is_number (v : value) : bool :=
  match v with VNum _ => true | _ => false end.

(** [Number(v)].  An array is converted through its string form: the empty
    array reads as the empty string, a one-element array as the string of its
    element (a number prints to a string that reads back as itself, [null]
    and [undefined] print as the empty string), and two or more elements
    give a string with a comma, which is no number. *)
Fixpoint ToNumber (v : value) : num :=
  match v with
  | VUndef => NaN
  | VNull => 0
  | VBool b => if b then 1 else 0
  | VNum n => n
  | VStr s => StringToNumber s
  | VObj _ => NaN
  | VArr [] => 0
  | VArr [x] =>
      match x with
      | VUndef | VNull => 0
      | VBool _ | VObj _ => NaN
      | VNum n => n
      | VStr s => StringToNumber s
      | VArr _ => ToNumber x
      end
  | VArr _ => NaN
  end.

(** Strict equality [v === n] with a number. *)
Definition strict_eq_num (v : value) (n : num) : bool :=
  match v with
  | VNum m => Num.eqb m n
  | _ => false
  end.

(** [xs.includes(v)] for an array literal [xs] of numbers: SameValueZero. *)
Definition same_value_zero_num (v : value) (n : num) : bool :=
  match v with
  | VNum m => Num.eqb m n || (isNaN m && isNaN n)
  | _ => false
  end.

Definition includes_num (xs : list Z) (v : value) : bool :=
  existsb (fun z => same_value_zero_num v (Num.of_Z z)) xs.

(** ** Outcomes: a returned value or a thrown exception *)

Inductive exn : Type :=
| TypeError.

Inductive outcome (A : Type) : Type :=
| Return (a : A)
| Throw (e : exn).

Arguments Return {A} a.
Arguments Throw {A} e.

Definition bind {A B : Type} (m : outcome A) (k : A -> outcome B) : outcome B :=
  match m with
  | Return a => k a
  | Throw e => Throw e
  end.

Notation "x <- m ;; k" := (bind m (fun x => k))
  (at level 61, m at next level, right associativity).

(** * logic.js *)

Module Logic.

(** ** normalizeCondition *)

(** [(weatherMain || "").toLowerCase()]: only a string has the method; on any
    other truthy value the call throws. *)
Definition normalizeCondition (weatherMain : value) : outcome string :=
  match or_else weatherMain (VStr "") with
  | VStr s =>
      let m := toLowerCase s in
      if includes m "thunder" then Return "thunderstorm"
      else if includes m "drizzle" || includes m "rain" then Return "rain"
      else if includes m "snow" then Return "snow"
      else if includes m "cloud" then Return "clouds"
      else if includes m "clear" then Return "clear"
      else Return "other"
  | _ => Throw TypeError
  end.

(** ** buildWeatherContext *)

Record WeatherContext : Type := {
  condition : string;
  rawConditionMain : value;
  description : value;
  temp : value;
  feelsLike : value;
  windSpeed : value;
  cloudPct : value;
  visibilityM : value;
  rainMm1h : value;
  snowMm1h : value
}.

Definition buildWeatherContext (api : value) : outcome WeatherContext :=
  let conditionMain := api ?. "weather" ?. 0%nat ?. "main" in
  let description := or_else (api ?. "weather" ?. 0%nat ?. "description") (VStr "") in
  let temp := api ?. "main" ?. "temp" in
  let feelsLike := api ?. "main" ?. "feels_like" in
  let windSpeed := api ?. "wind" ?. "speed" in
  condition <- normalizeCondition conditionMain ;;
  Return {|
    condition := condition;
    rawConditionMain := or_else conditionMain (VStr "Unknown");
    description := description;
    temp := temp;
    feelsLike := feelsLike;
    windSpeed := windSpeed;
    cloudPct := api ?. "clouds" ?. "all" ?? VNull;
    visibilityM := api ?. "visibility" ?? VNull;
    rainMm1h := api ?. "rain" ?. "1h" ?? VNull;
    snowMm1h := api ?. "snow" ?. "1h" ?? VNull
  |}.

(** ** getRecommendation *)

Record Recommendation : Type := {
  summary : string;
  recommendation : string;
  insightPool : list string
}.

(** The fourteen outcomes of the decision table, one constant per [return]
    of the source, in source order. *)

Definition branch_thunderstorm : Recommendation := {|
  summary := "⚡ Gewitter möglich";
  recommendation := "Drinnen bleiben und offene Flächen meiden. Sicherheit geht vor!";
  insightPool := [
    "Heute gewinnt definitiv der Plan B.";
    "Laptop statt Laufrunde – kein schlechter Deal.";
    "Bei Blitz und Donner lieber nicht experimentieren."
  ]
|}.

Definition branch_snow_winter_gear : Recommendation := {|
  summary := "❄️ Kalt & verschneit";
  recommendation := "Warme Winterstiefel, Mütze und Schal sind Pflicht. Vorsicht bei Glätte!";
  insightPool := [
    "Heute ist definitiv Wintermodus angesagt.";
    "Rutschfest schlägt stylish – jeden Tag.";
    "Langsam gehen ist das neue schnell."
  ]
|}.

Definition branch_snow_sleet : Recommendation := {|
  summary := "🌨️ Schnee / Schneeregen";
  recommendation := "Wasserfeste Jacke und mehrere warme Schichten einplanen.";
  insightPool := [
    "Schichten sind heute dein Superpower.";
    "Handschuhe zahlen sich immer aus.";
    "Draußen sieht's besser aus als es sich anfühlt."
  ]
|}.

Definition branch_rain_cold : Recommendation := {|
  summary := "🌧️ Kühl & regnerisch";
  recommendation := "Regenjacke plus warme Schicht (Hoodie oder Pullover) empfohlen.";
  insightPool := [
    "Heute ist kein Hoodie-Tag. Heute ist Hoodie-PLUS-Regenjacke.";
    "Schirme sind nett – Jacken sind sicherer.";
    "Pfützen-Management: aktiviert."
  ]
|}.

Definition branch_rain_warm : Recommendation := {|
  summary := "🌦️ Warm & regnerisch";
  recommendation := "Leichte Regenjacke reicht. Ein Wechselshirt kann aber helfen.";
  insightPool := [
    "Regen ist heute eher ein Stimmungstest.";
    "Kurz nass ist auch nass – leider.";
    "Ein trockener Rücken ist Gold wert."
  ]
|}.

Definition branch_rain_standard : Recommendation := {|
  summary := "🌧️ Regnerisch";
  recommendation := "Regenjacke oder Schirm nicht vergessen!";
  insightPool := [
    "Heute lieber wasserfest denken.";
    "Ein Schirm ist ein guter Sidekick.";
    "Draußen ist's ein bisschen „filmisch“."
  ]
|}.

Definition branch_windy_cold : Recommendation := {|
  summary := "💨 Windig & kühl";
  recommendation := "Winddichte Jacke und warme Kleidung sind heute sinnvoll.";
  insightPool := [
    "Heute gewinnt die winddichte Schicht.";
    "Mütze: total underrated.";
    "Der Wind macht aus kühl ganz schnell kalt."
  ]
|}.

Definition branch_windy : Recommendation := {|
  summary := "🌬️ Windig";
  recommendation := "Eine leichte, aber winddichte Schicht lohnt sich heute.";
  insightPool := [
    "Frisur heute: optional.";
    "Wind ist das neue Cardio.";
    "Kleine Extraschicht, großer Effekt."
  ]
|}.

Definition branch_clear_heat : Recommendation := {|
  summary := "☀️ Heiß & sonnig";
  recommendation := "Viel trinken, Mittagssonne meiden, Sonnencreme verwenden!";
  insightPool := [
    "Heute ist Schatten pure Strategie.";
    "Wasser first – immer.";
    "Die Sonne ist heute definitiv der Chef."
  ]
|}.

Definition branch_clear_cold : Recommendation := {|
  summary := "☀️ Klar, aber kalt";
  recommendation := "Warme Jacke einpacken. Die Sonne täuscht!";
  insightPool := [
    "Sonne bedeutet nicht automatisch warm.";
    "Klarer Himmel, klare Jackenwahl.";
    "Heute zählt die Basisschicht."
  ]
|}.

Definition branch_clear_pleasant : Recommendation := {|
  summary := "🌤️ Freundlich & trocken";
  recommendation := "Perfekte Bedingungen! Leichte Jacke nach Gefühl.";
  insightPool := [
    "Perfektes Wetter für einen Spaziergang.";
    "Heute lohnt sich frische Luft besonders.";
    "Kurz raus – macht den Kopf frei."
  ]
|}.

Definition branch_clouds_cool : Recommendation := {|
  summary := "☁️ Kühl & bewölkt";
  recommendation := "Warme Schicht einplanen, besonders morgens und abends.";
  insightPool := [
    "Wolken können kalt aussehen – und kalt sein.";
    "Heute passt ein Hoodie ziemlich gut.";
    "Komfort schlägt Outfit-Drama."
  ]
|}.

Definition branch_clouds_mild : Recommendation := {|
  summary := "⛅ Bewölkt";
  recommendation := "Unkompliziert: normale Alltagskleidung, optional leichte Jacke.";
  insightPool := [
    "Heute ist ein solider Tag.";
    "Wetter: unaufgeregt. Du auch.";
    "Einfach machen."
  ]
|}.

Definition branch_fallback : Recommendation := {|
  summary := "🌫️ Wechselhaft";
  recommendation := "Praktisch bleiben: Schichten tragen und flexibel planen.";
  insightPool := [
    "Heute ist Flexibilität eine echte Tugend.";
    "Plan mit Puffer ist ein guter Plan.";
    "Schichten sind dein bester Freund."
  ]
|}.

Definition getRecommendation (ctx : WeatherContext) : Recommendation :=
  let t := ToNumber (temp ctx) in
  let w := ToNumber (windSpeed ctx) in
  if condition ctx =? "thunderstorm" then branch_thunderstorm
  else if condition ctx =? "snow" then
    if (t <=? 0)%num then branch_snow_winter_gear
    else branch_snow_sleet
  else if condition ctx =? "rain" then
    if (t <=? 6)%num then branch_rain_cold
    else if (t >=? 22)%num then branch_rain_warm
    else branch_rain_standard
  else if (w >=? 10)%num then
    if (t <=? 10)%num then branch_windy_cold
    else branch_windy
  else if condition ctx =? "clear" then
    if (t >=? 28)%num then branch_clear_heat
    else if (t <=? 5)%num then branch_clear_cold
    else branch_clear_pleasant
  else if condition ctx =? "clouds" then
    if (t <=? 8)%num then branch_clouds_cool
    else branch_clouds_mild
  else branch_fallback.

(** ** pickDailyInsight *)

(** [xs[n]] for a number [n]: an element when [n] is an index, [undefined]
    otherwise. *)
Definition elem_at (xs : list value) (n : num) : value :=
  match n with
  | Fin q =>
      let z := Qfloor q in
      if Qeq_bool q (inject_Z z) && (0 <=? z)%Z
      then nth (Z.to_nat z) xs VUndef
      else VUndef
  | _ => VUndef
  end.

(** The random source is an input: [random] is the value [Math.random()]
    returns, a number in [0, 1).  The product with the length is taken
    exactly; the program rounds it to a binary64 value, which lifts a
    product within one part in 2^53 below an integer to that integer. *)
Definition pickDailyInsight (random : Q) (insightPool : value) : value :=
  match insightPool with
  | VArr xs =>
      if (List.length xs =? 0)%nat then VStr ""
      else
        let randomIndex :=
          Num.floor (Fin random * Num.of_Z (Z.of_nat (List.length xs)))%num in
        elem_at xs randomIndex
  | _ => VStr ""
  end.

(** ** getImpactScore

    Over exact numbers here; [DoubleLogic.getImpactScore] is the same
    function over binary64. *)

Definition clamp (n min max : num) : num :=
  Num.max min (Num.min max n).

Definition getImpactScore (ctx : WeatherContext) : num :=
  let score : num := 0%num in
  let t := ToNumber (temp ctx) in
  let w := ToNumber (windSpeed ctx) in
  let rain := rainMm1h ctx ?? VNum 0 in
  let snow := snowMm1h ctx ?? VNum 0 in
  let score :=
    if (ToNumber rain >? 0)%num
    then (score + clamp (ToNumber rain * 12) 10 45)%num else score in
  let score :=
    if (ToNumber snow >? 0)%num
    then (score + clamp (ToNumber snow * 10) 10 40)%num else score in
  let score :=
    if negb (isNaN w) && (w >? 6)%num
    then (score + clamp ((w - 6) * 4) 0 25)%num else score in
  let score :=
    if negb (isNaN t) && (t >=? 28)%num
    then (score + clamp ((t - 27) * 4) 4 25)%num else score in
  let score :=
    if negb (isNaN t) && (t <=? 2)%num
    then (score + clamp ((3 - t) * 5) 5 30)%num else score in
  let vis := visibilityM ctx in
  let score :=
    if is_number vis && (ToNumber vis >? 0)%num && (ToNumber vis <? 2000)%num
    then (score + clamp ((2000 - ToNumber vis) / 80) 5 25)%num else score in
  clamp (Num.round score) 0 100.

(** ** getBadges *)

Record Badge : Type := {
  text : string;
  tone : string
}.

Definition getBadges (ctx : WeatherContext) : list Badge :=
  let badges : list Badge := [] in
  let t := ToNumber (temp ctx) in
  let w := ToNumber (windSpeed ctx) in
  let rain := rainMm1h ctx ?? VNum 0 in
  let snow := snowMm1h ctx ?? VNum 0 in
  let vis := visibilityM ctx in
  let badges :=
    if (ToNumber rain >=? 2)%num
    then badges ++ [{| text := "Starker Regen"; tone := "danger" |}]
    else if (ToNumber rain >? 0)%num
    then badges ++ [{| text := "Nass"; tone := "warn" |}]
    else badges in
  let badges :=
    if (ToNumber snow >? 0)%num && (t <=? 1)%num
    then badges ++ [{| text := "Glattegefahr"; tone := "danger" |}]
    else if (ToNumber snow >? 0)%num
    then badges ++ [{| text := "Schnee"; tone := "warn" |}]
    else badges in
  let badges :=
    if is_number vis && (ToNumber vis <? 1000)%num
    then badges ++ [{| text := "Sicht schlecht"; tone := "warn" |}] else badges in
  let badges :=
    if negb (isNaN w) && (w >=? 10)%num
    then badges ++ [{| text := "Sehr windig"; tone := "warn" |}] else badges in
  let badges :=
    if negb (isNaN t) && (t >=? 30)%num
    then badges ++ [{| text := "Hitze"; tone := "warn" |}] else badges in
  let badges :=
    if negb (isNaN t) && (t <=? 0)%num
    then badges ++ [{| text := "Frost"; tone := "warn" |}] else badges in
  let badges :=
    if is_number (cloudPct ctx) && (ToNumber (cloudPct ctx) >=? 85)%num
    then badges ++ [{| text := "Sehr bewölkt"; tone := "neutral" |}] else badges in
  badges.

End Logic.

(** * app.js: the forecast helpers *)

Module App.

Definition meteoCodeToTag (code : value) : string :=
  if strict_eq_num code 0 then "Klar"
  else if includes_num [1; 2; 3]%Z code then "Wolkig"
  else if includes_num [45; 48]%Z code then "Nebel"
  else if includes_num [51; 53; 55; 56; 57]%Z code then "Niesel"
  else if includes_num [61; 63; 65; 66; 67]%Z code then "Regen"
  else if includes_num [71; 73; 75; 77]%Z code then "Schnee"
  else if includes_num [80; 81; 82]%Z code then "Schauer"
  else if includes_num [95; 96; 99]%Z code then "Gewitter"
  else "Wechselhaft".

Record HourlyItem : Type := {
  time : value;
  temp : value;
  pop : value;
  wind : value;
  tag : string
}.

Section Forecast.

(** The runtime's [Date]: [DateValue v] is the time value of [new Date(v)]
    in milliseconds since the epoch, not-a-number for an invalid date (the
    parse of a date string is left to the implementation by the language).
    [LocalTZA t isUTC] is the offset of local time in milliseconds, as the
    language defines it: the offset in force at the time value [t] when
    [isUTC] is true, and at the local time [t] when it is false.  It is left
    to the implementation and changes with daylight saving time. *)
Variable DateValue : value -> num.
Variable LocalTZA : Z -> bool -> Z.

Definition msPerDay : Z := 86400000.

Definition LocalTime (t : Z) : Z := (t + LocalTZA t true)%Z.

Definition UTC (t : Z) : Z := (t - LocalTZA t false)%Z.

Definition Day (t : Z) : Z := (t / msPerDay)%Z.

Definition MakeTime (hour min sec ms : Z) : Z :=
  (hour * 3600000 + min * 60000 + sec * 1000 + ms)%Z.

Definition MakeDate (day time : Z) : Z := (day * msPerDay + time)%Z.

(** [end.setHours(23, 59, 59, 999)] on a date whose time value is [now]: the
    local time of [now] with its time within the day replaced, read back as
    a time value at the offset in force at that local time.  The clipping of
    the result to the range of time values, 100,000,000 days either side of
    the epoch, is left out. *)
Definition endOfDay (now : Z) : Z :=
  let t := LocalTime now in
  let date := MakeDate (Day t) (MakeTime 23 59 59 999) in
  UTC date.

Section Loop.

Variables (now end_ : num) (times temp_ pop_ wind_ code : value).

Definition item_at (i : nat) : HourlyItem := {|
  time := getProp times i;
  temp := getProp temp_ i;
  pop := getProp pop_ i;
  wind := getProp wind_ i;
  tag := meteoCodeToTag (getProp code i)
|}.

(** The [for] loop from index [i] on, [items] pushed so far; [None] when
    [fuel] iterations do not reach the end of the loop. *)
Fixpoint hourlyLoop (fuel i : nat) (items : list HourlyItem)
  : option (list HourlyItem) :=
  match fuel with
  | O => None
  | S fuel' =>
      if (Num.of_Z (Z.of_nat i) <? ToNumber (getProp times "length"))%num then
        let t := DateValue (getProp times i) in
        if (t <? now)%num then hourlyLoop fuel' (S i) items
        else if (t >? end_)%num then Some items
        else hourlyLoop fuel' (S i) (items ++ [item_at i])
      else Some items
  end.

End Loop.

(** The items the function renders.  The two reads of the clock by
    [new Date()] are the inputs [clock] and [clock'], in milliseconds since
    the epoch; writing the items to the page is left out. *)
Definition renderHourlyUntilEndOfDay (fuel : nat) (clock clock' : Z) (fx : value)
  : option (list HourlyItem) :=
  let now := Num.of_Z clock in
  let end_ := Num.of_Z (endOfDay clock') in
  let times := or_else (fx ?. "hourly" ?. "time") (VArr []) in
  let temp := or_else (fx ?. "hourly" ?. "temperature_2m") (VArr []) in
  let pop := or_else (fx ?. "hourly" ?. "precipitation_probability") (VArr []) in
  let wind := or_else (fx ?. "hourly" ?. "wind_speed_10m") (VArr []) in
  let code := or_else (fx ?. "hourly" ?. "weather_code") (VArr []) in
  hourlyLoop now end_ times temp pop wind code fuel 0 [].

End Forecast.

End App.

(** * The specification's own formulations

    Definitions written after the words of the specification, to be compared
    with the functions above. *)

Module Spec.

Import Logic.

(** ** Condition Normalizer (section 4.1): case-insensitive substring match *)

(** [s] contains the lower-case keyword [kw], letter case ignored. *)
Definition contains_ci (kw s : string) : Prop :=
  exists pre w post, s = (pre ++ w ++ post)%string /\ toLowerCase w = kw.

(** The first-match priority table over a label. *)
Definition normalize_table (s c : string) : Prop :=
  let thunder := contains_ci "thunder" s in
  let rain := contains_ci "drizzle" s \/ contains_ci "rain" s in
  let snow := contains_ci "snow" s in
  let cloud := contains_ci "cloud" s in
  let clear := contains_ci "clear" s in
  (thunder /\ c = "thunderstorm")
  \/ (~ thunder /\ rain /\ c = "rain")
  \/ (~ thunder /\ ~ rain /\ snow /\ c = "snow")
  \/ (~ thunder /\ ~ rain /\ ~ snow /\ cloud /\ c = "clouds")
  \/ (~ thunder /\ ~ rain /\ ~ snow /\ ~ cloud /\ clear /\ c = "clear")
  \/ (~ thunder /\ ~ rain /\ ~ snow /\ ~ cloud /\ ~ clear /\ c = "other").

(** A label as the specification has it: a text, or absent. *)
Definition label_value (label : option string) : value :=
  match label with
  | Some s => VStr s
  | None => VUndef
  end.

Definition label_text (label : option string) : string :=
  match label with
  | Some s => s
  | None => ""
  end.

(** ** Context Builder (section 4.2) *)

(** The condition label of a payload. *)
Definition payload_label (api : value) : value :=
  api ?. "weather" ?. 0%nat ?. "main".

(** A payload that has none of the fields the builder reads. *)
Definition missing_every_field (api : value) : Prop :=
  api ?. "weather" = VUndef /\ api ?. "main" = VUndef /\ api ?. "wind" = VUndef
  /\ api ?. "clouds" = VUndef /\ api ?. "visibility" = VUndef
  /\ api ?. "rain" = VUndef /\ api ?. "snow" = VUndef.

(** The context built from such a payload. *)
Definition default_context : WeatherContext := {|
  condition := "other";
  rawConditionMain := VStr "Unknown";
  description := VStr "";
  temp := VUndef;
  feelsLike := VUndef;
  windSpeed := VUndef;
  cloudPct := VNull;
  visibilityM := VNull;
  rainMm1h := VNull;
  snowMm1h := VNull
|}.

(** ** Impact Score (section 4.5): the additive model *)

(** The fields of a context the score reads, typed as in section 3. *)
Record Reading : Type := {
  temperature : num;
  wind : num;
  rain : num;
  snow : num;
  visibility : option num
}.

Definition reading (ctx : WeatherContext) : Reading := {|
  temperature := ToNumber (temp ctx);
  wind := ToNumber (windSpeed ctx);
  rain := ToNumber (rainMm1h ctx ?? VNum 0);
  snow := ToNumber (snowMm1h ctx ?? VNum 0);
  visibility :=
    match visibilityM ctx with
    | VNum v => Some v
    | _ => None
    end
|}.

Definition rain_contribution (r : Reading) : num :=
  if (rain r >? 0)%num then clamp (rain r * 12) 10 45 else 0%num.

Definition snow_contribution (r : Reading) : num :=
  if (snow r >? 0)%num then clamp (snow r * 10) 10 40 else 0%num.

Definition wind_contribution (r : Reading) : num :=
  if negb (isNaN (wind r)) && (wind r >? 6)%num
  then clamp ((wind r - 6) * 4) 0 25 else 0%num.

Definition heat_contribution (r : Reading) : num :=
  if negb (isNaN (temperature r)) && (temperature r >=? 28)%num
  then clamp ((temperature r - 27) * 4) 4 25 else 0%num.

Definition cold_contribution (r : Reading) : num :=
  if negb (isNaN (temperature r)) && (temperature r <=? 2)%num
  then clamp ((3 - temperature r) * 5) 5 30 else 0%num.

Definition visibility_contribution (r : Reading) : num :=
  match visibility r with
  | Some v =>
      if (v >? 0)%num && (v <? 2000)%num
      then clamp ((2000 - v) / 80) 5 25 else 0%num
  | None => 0%num
  end.

(** The rational a finite number is. *)
Definition finite_part (n : num) : Q :=
  match n with
  | Fin q => q
  | _ => 0
  end.

(** A finite number that is not negative. *)
Definition finite_nonneg (n : num) : Prop :=
  n = Fin (finite_part n) /\ 0 <= finite_part n.

(** The six contributions as one rational. *)
Definition total (r : Reading) : Q :=
  finite_part (rain_contribution r) + finite_part (snow_contribution r)
  + finite_part (wind_contribution r) + finite_part (heat_contribution r)
  + finite_part (cold_contribution r) + finite_part (visibility_contribution r).

(** ** Forecast Window Extractor (section 4.7) *)

(** The weather-code-to-tag table. *)
Definition code_table : list (list Z * string) := [
  ([0], "Klar");
  ([1; 2; 3], "Wolkig");
  ([45; 48], "Nebel");
  ([51; 53; 55; 56; 57], "Niesel");
  ([61; 63; 65; 66; 67], "Regen");
  ([71; 73; 75; 77], "Schnee");
  ([80; 81; 82], "Schauer");
  ([95; 96; 99], "Gewitter")
]%Z.

Fixpoint table_lookup (z : Z) (table : list (list Z * string)) : string :=
  match table with
  | [] => "Wechselhaft"
  | (codes, tag) :: rest =>
      if existsb (Z.eqb z) codes then tag else table_lookup z rest
  end.

(** The integer a value is, when it is one. *)
Definition integer_of (v : value) : option Z :=
  match v with
  | VNum (Fin q) =>
      if Qeq_bool q (inject_Z (Qfloor q)) then Some (Qfloor q) else None
  | _ => None
  end.

Definition tag_of (code : value) : string :=
  match integer_of code with
  | Some z => table_lookup z code_table
  | None => "Wechselhaft"
  end.

(** The instant [e] is 23:59:59.999 of the current calendar day: it is the
    time value of a local time [d] that is on the local day of [now] and in
    the last millisecond of that day.  Local time is [offset] ahead of the
    time value, and the offset depends on the instant. *)
Definition end_of_local_day (offset : Z -> bool -> Z) (now e : Z) : Prop :=
  exists d : Z,
    (d / 86400000 = (now + offset now true) / 86400000
     /\ d mod 86400000 = 86399999
     /\ e = d - offset d false)%Z.

Section Window.

Variable DateValue : value -> num.
Variables (now end_ : num).
Variables (times : list value) (temp_ pop_ wind_ code : value).

Definition in_window (t : num) : bool :=
  (now <=? t)%num && (t <=? end_)%num.

Definition point_at (i : nat) : App.HourlyItem := {|
  App.time := nth i times VUndef;
  App.temp := getProp temp_ i;
  App.pop := getProp pop_ i;
  App.wind := getProp wind_ i;
  App.tag := tag_of (getProp code i)
|}.

(** Every entry whose timestamp is in the window, in original order. *)
Definition hourly_window : list App.HourlyItem :=
  map point_at
    (filter (fun i => in_window (DateValue (nth i times VUndef)))
       (seq 0 (List.length times))).

(** The series is in chronological order (every timestamp is a date). *)
Definition chronological : Prop :=
  forall i j, (i <= j < List.length times)%nat ->
    (DateValue (nth i times VUndef) <=? DateValue (nth j times VUndef))%num = true.

End Window.

End Spec.

(** * Sample inputs *)

Module Sample.

Import Logic.

(** A context given by its condition, temperature and wind speed. *)
Definition context_of (c : string) (t w : value) : WeatherContext := {|
  condition := c;
  rawConditionMain := VStr c;
  description := VStr "";
  temp := t;
  feelsLike := t;
  windSpeed := w;
  cloudPct := VNull;
  visibilityM := VNull;
  rainMm1h := VNull;
  snowMm1h := VNull
|}.

(** A payload whose condition label is the number 5. *)
Definition numeric_label_payload : value :=
  VObj [("weather", VArr [VObj [("main", VNum 5)]])].

(** A [Date] that reads a number as the time value it is. *)
Definition epoch_millis (v : value) : num :=
  match v with
  | VNum n => n
  | _ => NaN
  end.

(** Local time in Berlin on 25 October 2026: two hours ahead until the
    clocks are set back at 01:00 UTC, which is 03:00 local time, and one
    hour ahead from then on. *)
Definition berlin_autumn_2026 (t : Z) (isUTC : bool) : Z :=
  if isUTC
  then (if t <? 1792890000000 then 7200000 else 3600000)%Z
  else (if t <? 1792897200000 then 7200000 else 3600000)%Z.

(** That day in Berlin at 00:30 local time. *)
Definition berlin_half_past_midnight : Z := 1792881000000.

(** Four hours of that day in Berlin: midnight, 21:00, 23:00, and midnight
    of the day after, all in local time; the weather codes are 0, 61, 95
    and 3. *)
Definition berlin_forecast : value :=
  VObj [("hourly",
         VObj [("time", VArr [VNum 1792879200000; VNum 1792958400000;
                              VNum 1792965600000; VNum 1792969200000]);
               ("temperature_2m", VArr [VNum 4; VNum 5; VNum 6; VNum 7]);
               ("weather_code", VArr [VNum 0; VNum 61; VNum 95; VNum 3])])].

(** [ctx] with its hourly rain depth replaced. *)
Definition with_rain (ctx : WeatherContext) (rain : value) : WeatherContext := {|
  condition := condition ctx;
  rawConditionMain := rawConditionMain ctx;
  description := description ctx;
  temp := temp ctx;
  feelsLike := feelsLike ctx;
  windSpeed := windSpeed ctx;
  cloudPct := cloudPct ctx;
  visibilityM := visibilityM ctx;
  rainMm1h := rain;
  snowMm1h := snowMm1h ctx
|}.

(** The context of the impact score example of section 8; the fields the
    example leaves out are arguments. *)
Definition score_example (c : string) (raw desc feels cloud : value)
  : WeatherContext := {|
  condition := c;
  rawConditionMain := raw;
  description := desc;
  temp := VNum (-1);
  feelsLike := feels;
  windSpeed := VNum 3;
  cloudPct := cloud;
  visibilityM := VNum 5000;
  rainMm1h := VNum 0;
  snowMm1h := VNum 0
|}.

(** The context of the badge example of section 8; it has no cloud
    percentage. *)
Definition badge_example (c : string) (raw desc feels : value)
  : WeatherContext := {|
  condition := c;
  rawConditionMain := raw;
  description := desc;
  temp := VNum (-2);
  feelsLike := feels;
  windSpeed := VNum 12;
  cloudPct := VUndef;
  visibilityM := VNum 500;
  rainMm1h := VNum 3;
  snowMm1h := VNum 0
|}.

End Sample.

(** * logic.js: the icon of a condition *)

Module Icons.

(** What [icons[condition]] finds: an icon of the table, or a member every
    object inherits from [Object.prototype] (a function, or the prototype
    itself), which is truthy. *)
Inductive member : Type :=
| Own (text : string)
| Inherited (name : string).

Definition object_prototype_names : list string := [
  "constructor"; "__defineGetter__"; "__defineSetter__"; "hasOwnProperty";
  "__lookupGetter__"; "__lookupSetter__"; "isPrototypeOf";
  "propertyIsEnumerable"; "toString"; "valueOf"; "__proto__"; "toLocaleString"
].

Definition icons : list (string * string) := [
  ("clear", "☀️");
  ("clouds", "☁️");
  ("rain", "🌧️");
  ("snow", "❄️");
  ("thunderstorm", "⚡");
  ("other", "🌫️")
].

Fixpoint own_property (name : string) (props : list (string * string))
  : option string :=
  match props with
  | [] => None
  | (k, v) :: rest => if String.eqb k name then Some v else own_property name rest
  end.

(** [icons[condition]]; [None] is [undefined]. *)
Definition icons_get (condition : string) : option member :=
  match own_property condition icons with
  | Some icon => Some (Own icon)
  | None =>
      if existsb (String.eqb condition) object_prototype_names
      then Some (Inherited condition)
      else None
  end.

Definition getWeatherIcon (condition : string) : member :=
  match icons_get condition with
  | Some (Own EmptyString) | None => Own "🌤️"
  | Some m => m
  end.

End Icons.

(** * Contexts that differ in one field, and the order of the badges *)

Module Vary.

Import Logic.

Definition with_snow (ctx : WeatherContext) (snow : value) : WeatherContext := {|
  condition := condition ctx;
  rawConditionMain := rawConditionMain ctx;
  description := description ctx;
  temp := temp ctx;
  feelsLike := feelsLike ctx;
  windSpeed := windSpeed ctx;
  cloudPct := cloudPct ctx;
  visibilityM := visibilityM ctx;
  rainMm1h := rainMm1h ctx;
  snowMm1h := snow
|}.

Definition with_wind (ctx : WeatherContext) (wind : value) : WeatherContext := {|
  condition := condition ctx;
  rawConditionMain := rawConditionMain ctx;
  description := description ctx;
  temp := temp ctx;
  feelsLike := feelsLike ctx;
  windSpeed := wind;
  cloudPct := cloudPct ctx;
  visibilityM := visibilityM ctx;
  rainMm1h := rainMm1h ctx;
  snowMm1h := snowMm1h ctx
|}.

Definition with_temp (ctx : WeatherContext) (t : value) : WeatherContext := {|
  condition := condition ctx;
  rawConditionMain := rawConditionMain ctx;
  description := description ctx;
  temp := t;
  feelsLike := feelsLike ctx;
  windSpeed := windSpeed ctx;
  cloudPct := cloudPct ctx;
  visibilityM := visibilityM ctx;
  rainMm1h := rainMm1h ctx;
  snowMm1h := snowMm1h ctx
|}.

Definition with_visibility (ctx : WeatherContext) (vis : value) : WeatherContext := {|
  condition := condition ctx;
  rawConditionMain := rawConditionMain ctx;
  description := description ctx;
  temp := temp ctx;
  feelsLike := feelsLike ctx;
  windSpeed := windSpeed ctx;
  cloudPct := cloudPct ctx;
  visibilityM := vis;
  rainMm1h := rainMm1h ctx;
  snowMm1h := snowMm1h ctx
|}.

(** The six categories of a context. *)
Definition categories : list string :=
  ["clear"; "clouds"; "rain"; "snow"; "thunderstorm"; "other"].

(** The fourteen branches. *)
Definition branches : list Recommendation := [
  branch_thunderstorm; branch_snow_winter_gear; branch_snow_sleet;
  branch_rain_cold; branch_rain_warm; branch_rain_standard;
  branch_windy_cold; branch_windy;
  branch_clear_heat; branch_clear_cold; branch_clear_pleasant;
  branch_clouds_cool; branch_clouds_mild; branch_fallback
].

(** The nine badges in the order of the rules of [getBadges]. *)
Definition badge_heavy_rain : Badge := {| text := "Starker Regen"; tone := "danger" |}.
Definition badge_wet : Badge := {| text := "Nass"; tone := "warn" |}.
Definition badge_ice_risk : Badge := {| text := "Glattegefahr"; tone := "danger" |}.
Definition badge_snow : Badge := {| text := "Schnee"; tone := "warn" |}.
Definition badge_poor_visibility : Badge := {| text := "Sicht schlecht"; tone := "warn" |}.
Definition badge_very_windy : Badge := {| text := "Sehr windig"; tone := "warn" |}.
Definition badge_heat : Badge := {| text := "Hitze"; tone := "warn" |}.
Definition badge_frost : Badge := {| text := "Frost"; tone := "warn" |}.
Definition badge_very_cloudy : Badge := {| text := "Sehr bewölkt"; tone := "neutral" |}.

Definition badge_order : list Badge := [
  badge_heavy_rain; badge_wet; badge_ice_risk; badge_snow;
  badge_poor_visibility; badge_very_windy; badge_heat; badge_frost;
  badge_very_cloudy
].

Definition badge_eqb (a b : Badge) : bool :=
  String.eqb (text a) (text b) && String.eqb (tone a) (tone b).

(** [xs] is [ys] with some elements left out. *)
Fixpoint subsequence (xs ys : list Badge) : bool :=
  match xs, ys with
  | [], _ => true
  | _ :: _, [] => false
  | x :: xs', y :: ys' =>
      if badge_eqb x y then subsequence xs' ys' else subsequence xs ys'
  end.

Definition has_badge (b : Badge) (badges : list Badge) : bool :=
  existsb (badge_eqb b) badges.

(** The shape every badge list has: in rule order, at most six long, and
    without both badges of an exclusive pair. *)
Definition badges_check (badges : list Badge) : bool :=
  subsequence badges badge_order
  && (List.length badges <=? 6)%nat
  && negb (has_badge badge_heavy_rain badges && has_badge badge_wet badges)
  && negb (has_badge badge_ice_risk badges && has_badge badge_snow badges)
  && negb (has_badge badge_heat badges && has_badge badge_frost badges).

End Vary.

(** * Text functions of the runtime *)

Module Text.

(** [s.trim()]: white space and line terminators off both ends. *)
Fixpoint trim_end (s : string) : string :=
  match s with
  | EmptyString => EmptyString
  | String c r =>
      match skip_ws s with
      | EmptyString => EmptyString
      | _ => String c (trim_end r)
      end
  end.

Definition trim (s : string) : string := trim_end (skip_ws s).

(** [encodeURIComponent(s)] for a well-formed text: the unreserved
    characters stay, every other byte of the UTF-8 form becomes a percent
    sign and two upper-case hexadecimal digits. *)
Definition unreserved (c : ascii) : bool :=
  let n := nat_of_ascii c in
  ((65 <=? n) && (n <=? 90) || (97 <=? n) && (n <=? 122)
   || (48 <=? n) && (n <=? 57))%nat
  || existsb (Ascii.eqb c) ["-"; "_"; "."; "!"; "~"; "*"; "'"; "("; ")"]%char.

Definition hex_digit (n : nat) : ascii :=
  if (n <? 10)%nat then ascii_of_nat (48 + n) else ascii_of_nat (55 + n).

Fixpoint encodeURIComponent (s : string) : string :=
  match s with
  | EmptyString => EmptyString
  | String c r =>
      if unreserved c then String c (encodeURIComponent r)
      else
        let n := nat_of_ascii c in
        String "%" (String (hex_digit (n / 16)) (String (hex_digit (n mod 16))
          (encodeURIComponent r)))
  end.

Fixpoint zeros (n : nat) : string :=
  match n with
  | O => EmptyString
  | S n' => String "0" (zeros n')
  end.

(** The decimal digits of a natural number. *)
Definition decimal_digits (n : Z) : string :=
  NilZero.string_of_uint (N.to_uint (Z.to_N n)).

Section Numbers.

(** How the runtime prints a number ([String(x)], a template literal); the
    shortest digits that read back as the same double are outside what the
    rationals of this embedding determine. *)
Variable NumberToString : num -> string.

(** [x.toFixed(f)]. *)
Definition toFixed (f : nat) (x : num) : string :=
  match x with
  | NaN => "NaN"
  | PInf => "Infinity"
  | NInf => "-Infinity"
  | Fin q =>
      let s := if negb (Qle_bool 0 q) then "-" else "" in
      let a := Qabs q in
      if Qle_bool (inject_Z (10 ^ 21)) a then (s ++ NumberToString (Fin a))%string
      else
        let n := Qfloor (a * inject_Z (10 ^ Z.of_nat f) + (1 # 2)) in
        let m := decimal_digits n in
        match f with
        | O => (s ++ m)%string
        | _ =>
            let m := if (String.length m <=? f)%nat
                     then (zeros (f + 1 - String.length m) ++ m)%string else m in
            let k := String.length m in
            (s ++ substring 0 (k - f) m ++ "." ++ substring (k - f) f m)%string
        end
  end.

(** [String(v)]. *)
Fixpoint ToString (v : value) : string :=
  match v with
  | VUndef => "undefined"
  | VNull => "null"
  | VBool true => "true"
  | VBool false => "false"
  | VNum n => NumberToString n
  | VStr s => s
  | VObj _ => "[object Object]"
  | VArr xs =>
      let element (x : value) : string :=
        match x with
        | VUndef | VNull => EmptyString
        | _ => ToString x
        end in
      (fix join (l : list value) : string :=
         match l with
         | [] => EmptyString
         | [x] => element x
         | x :: rest => (element x ++ "," ++ join rest)%string
         end) xs
  end.

End Numbers.

End Text.

(** * app.js: the daily forecast and the forecast cache *)

Module Render.

Import Text.

(** What a card of the seven-day forecast shows: the day, the rounded
    minimum and maximum temperature, the tag of the weather code, the
    precipitation probability and sum (0 when absent) and the rounded
    maximum wind. *)
Record DailyCard : Type := {
  day : value;
  tempMin : num;
  tempMax : num;
  dayTag : string;
  popMax : value;
  precipSum : value;
  windMax : num
}.

Fixpoint map_indexed {A B : Type} (f : A -> nat -> B) (i : nat) (l : list A)
  : list B :=
  match l with
  | [] => []
  | x :: rest => f x i :: map_indexed f (S i) rest
  end.

(** The cards the function renders, in order; the date and number formats
    of the page are left out.  [time.slice(0, 7).map(...)] throws on a
    [time] that is truthy and no array. *)
Definition renderDaily7 (fx : value) : outcome (list DailyCard) :=
  let time := or_else (fx ?. "daily" ?. "time") (VArr []) in
  let tmin := or_else (fx ?. "daily" ?. "temperature_2m_min") (VArr []) in
  let tmax := or_else (fx ?. "daily" ?. "temperature_2m_max") (VArr []) in
  let pop := or_else (fx ?. "daily" ?. "precipitation_probability_max") (VArr []) in
  let sum := or_else (fx ?. "daily" ?. "precipitation_sum") (VArr []) in
  let wind := or_else (fx ?. "daily" ?. "wind_speed_10m_max") (VArr []) in
  let code := or_else (fx ?. "daily" ?. "weather_code") (VArr []) in
  match time with
  | VArr days =>
      Return (map_indexed
                (fun d i => {|
                   day := d;
                   tempMin := Num.round (ToNumber (getProp tmin i));
                   tempMax := Num.round (ToNumber (getProp tmax i));
                   dayTag := App.meteoCodeToTag (getProp code i);
                   popMax := getProp pop i ?? VNum 0;
                   precipSum := getProp sum i ?? VNum 0;
                   windMax := Num.round (ToNumber (getProp wind i ?? VNum 0))
                 |})
                0 (firstn 7 days))
  | _ => Throw TypeError
  end.

(** ** ensureForecastLoaded *)

Record Location : Type := {
  lat : value;
  lon : value;
  label : value
}.

(** The variables of the page the function reads and writes. *)
Record AppState : Type := {
  lastLocation : option Location;
  lastForecast : value;
  forecastLoadedFor : option string;
  forecastStatus : string
}.

Inductive completion : Type :=
| Resolved
| RejectedTypeError
| RejectedFetch.

(** What one call does: the state it leaves, the coordinates it fetched a
    forecast for, and how its promise completes. *)
Record Step : Type := {
  state : AppState;
  fetched : list (value * value);
  result : completion
}.

Section Cache.

Variable NumberToString : num -> string.

(** The network: the forecast for the coordinates, or [None] when the
    request fails. *)
Variable getForecastOpenMeteo : value -> value -> option value.

(** [v.toFixed(4)]: only a number has the method. *)
Definition toFixed4 (v : value) : outcome string :=
  match v with
  | VNum n => Return (toFixed NumberToString 4 n)
  | _ => Throw TypeError
  end.

Definition key_equal (loaded : option string) (key : string) : bool :=
  match loaded with
  | Some k => String.eqb k key
  | None => false
  end.

(** One call that runs to its end before the next one starts. *)
Definition ensureForecastLoaded (st : AppState) : Step :=
  match lastLocation st with
  | None => {| state := st; fetched := []; result := Resolved |}
  | Some loc =>
      match toFixed4 (lat loc), toFixed4 (lon loc) with
      | Return a, Return b =>
          let key := (a ++ "," ++ b)%string in
          if truthy (lastForecast st) && key_equal (forecastLoadedFor st) key
          then {| state := st; fetched := []; result := Resolved |}
          else
            let loading := {|
              lastLocation := lastLocation st;
              lastForecast := lastForecast st;
              forecastLoadedFor := forecastLoadedFor st;
              forecastStatus := "Forecast wird geladen …"
            |} in
            match getForecastOpenMeteo (lat loc) (lon loc) with
            | Some fx =>
                {| state := {|
                     lastLocation := lastLocation st;
                     lastForecast := fx;
                     forecastLoadedFor := Some key;
                     forecastStatus := "Forecast bereit."
                   |};
                   fetched := [(lat loc, lon loc)];
                   result := Resolved |}
            | None =>
                {| state := loading;
                   fetched := [(lat loc, lon loc)];
                   result := RejectedFetch |}
            end
      | _, _ => {| state := st; fetched := []; result := RejectedTypeError |}
      end
  end.

(** The page moves to another location. *)
Definition move_to (st : AppState) (loc : Location) : AppState := {|
  lastLocation := Some loc;
  lastForecast := lastForecast st;
  forecastLoadedFor := forecastLoadedFor st;
  forecastStatus := forecastStatus st
|}.

End Cache.

End Render.

(** * The hourly scan over a series in any order *)

Module Scan.

Section Scan.

Variables (now end_ : num) (date : nat -> num).

(** The entry at which the loop breaks: not before now, and after the end. *)
Definition stops (i : nat) : bool :=
  negb (date i <? now)%num && (date i >? end_)%num.

(** An entry the loop pushes: not before now, and not after the end. *)
Definition kept (i : nat) : bool :=
  negb (date i <? now)%num && negb (date i >? end_)%num.

(** How many of the [n] entries from [i] on come before the first one at
    which the loop breaks. *)
Fixpoint before_stop (i n : nat) : nat :=
  match n with
  | O => O
  | S n' => if stops i then O else S (before_stop (S i) n')
  end.

End Scan.

End Scan.

(** * weather-backend/server.js: the two proxy routes *)

Module Server.

Import Text.

(** [res.status(status).json(body)]. *)
Inductive reply : Type :=
| Json (status : Z) (body : value).

(** What a route does with the query: answer at once, or fetch a URL of the
    weather provider. *)
Inductive action : Type :=
| Respond (r : reply)
| Fetch (url : string).

(** [Number.isFinite(n)]. *)
Definition isFinite (n : num) : bool :=
  match n with
  | Fin _ => true
  | _ => false
  end.

Definition error_body (message : string) : value :=
  VObj [("error", VStr message)].

Section Routes.

Variable NumberToString : num -> string.

(** The API key of the environment. *)
Variable KEY : string.

(** The provider: status and body of the answer, or [None] when the request
    or the reading of its body fails. *)
Variable fetch : string -> option (Z * value).

(** [/api/geocode], up to the request it sends; [query] is [req.query]. *)
Definition geocode (query : value) : action :=
  let q := trim (ToString NumberToString (or_else (getProp query "q") (VStr ""))) in
  let limit := Num.min (ToNumber (or_else (getProp query "limit") (VNum 5))) 5 in
  match q with
  | EmptyString => Respond (Json 400 (error_body "Missing q"))
  | _ =>
      Fetch ("http://api.openweathermap.org/geo/1.0/direct"
             ++ "?q=" ++ encodeURIComponent q
             ++ "&limit=" ++ NumberToString limit
             ++ "&appid=" ++ KEY)%string
  end.

(** [/api/weather], up to the request it sends. *)
Definition weather (query : value) : action :=
  let lat := ToNumber (getProp query "lat") in
  let lon := ToNumber (getProp query "lon") in
  let units := ToString NumberToString (or_else (getProp query "units") (VStr "metric")) in
  let lang := ToString NumberToString (or_else (getProp query "lang") (VStr "de")) in
  if negb (isFinite lat) || negb (isFinite lon)
  then Respond (Json 400 (error_body "Missing/invalid lat or lon"))
  else
    Fetch ("https://api.openweathermap.org/data/2.5/weather"
           ++ "?lat=" ++ NumberToString lat
           ++ "&lon=" ++ NumberToString lon
           ++ "&appid=" ++ KEY
           ++ "&units=" ++ encodeURIComponent units
           ++ "&lang=" ++ encodeURIComponent lang)%string.

(** The answer of the provider passed on, or 500 when there is none. *)
Definition relay (failure : string) (url : string) : reply :=
  match fetch url with
  | Some (status, data) => Json status data
  | None => Json 500 (error_body failure)
  end.

Definition geocode_route (query : value) : reply :=
  match geocode query with
  | Respond r => r
  | Fetch url => relay "Geocode failed" url
  end.

Definition weather_route (query : value) : reply :=
  match weather query with
  | Respond r => r
  | Fetch url => relay "Weather failed" url
  end.

End Routes.

End Server.

(** * Sample inputs for the cache and the server *)

Module Fixture.

Import Render.

(** A printer for numbers of integer value below 10^21; other numbers are
    not printed in the samples. *)
Definition print_integer (n : num) : string :=
  match n with
  | Fin q =>
      if Qle_bool 0 q then Text.decimal_digits (Qfloor q)
      else ("-" ++ Text.decimal_digits (- Qfloor q))%string
  | NaN => "NaN"
  | PInf => "Infinity"
  | NInf => "-Infinity"
  end.

(** A network that answers every request with the same forecast. *)
Definition steady_network (forecast : value) (lat lon : value) : option value :=
  Some forecast.

Definition berlin : Location :=
  {| lat := VNum (Fin 52.52001); lon := VNum (Fin 13.405); label := VStr "Berlin" |}.

Definition berlin_nearby : Location :=
  {| lat := VNum (Fin 52.52004); lon := VNum (Fin 13.40503); label := VStr "Berlin" |}.

(** The state of the page after a location was chosen and before any
    forecast was loaded. *)
Definition fresh_state (loc : Location) : AppState := {|
  lastLocation := Some loc;
  lastForecast := VNull;
  forecastLoadedFor := None;
  forecastStatus := ""
|}.

End Fixture.

(** * Numbers as binary64

    The numbers of the language are IEEE 754 binary64 values, and every
    arithmetic operation rounds its exact result to the nearest of them,
    ties to even.  Where the exact value of a result matters the program is
    read over these: a number [Fin q] of a [value] is the number written
    [q], that is the binary64 value nearest to [q].  Signed zeros are kept;
    a [value] cannot hold the negative one. *)

Module Double.

Import SpecFloat.

Definition double : Type := spec_float.

Definition prec : Z := 53.
Definition emax : Z := 1024.

(** The binary64 value nearest to a rational, ties to even; an infinity
    beyond the largest finite value. *)
Definition of_Q (q : Q) : double :=
  let rounded (s : bool) (n : positive) : double :=
    let '(m, e, l) := SFdiv_core_binary prec emax (Zpos n) 0 (Zpos (Qden q)) 0 in
    binary_round_aux prec emax s m e l in
  match Qnum q with
  | Z0 => S754_zero false
  | Zpos n => rounded false n
  | Zneg n => rounded true n
  end.

Definition of_num (n : num) : double :=
  match n with
  | NaN => S754_nan
  | NInf => S754_infinity true
  | PInf => S754_infinity false
  | Fin q => of_Q q
  end.

Definition of_Z (z : Z) : double := of_Q (inject_Z z).

(** The integer a binary64 value is, when it is one. *)
Definition to_Z (a : double) : option Z :=
  match a with
  | S754_zero false => Some 0%Z
  | S754_finite s m e =>
      let z := if (0 <=? e)%Z
               then (cond_Zopp s (Zpos m) * 2 ^ e)%Z
               else (cond_Zopp s (Zpos m) / 2 ^ (- e))%Z in
      match of_Z z with
      | S754_finite s' m' e' =>
          if Bool.eqb s s' && (m =? m')%positive && (e =? e')%Z then Some z else None
      | _ => None
      end
  | _ => None
  end.

(** [Number(v)]. *)
Definition ToNumber (v : value) : double := of_num (ToNumber v).

Definition isNaN (a : double) : bool :=
  match a with S754_nan => true | _ => false end.

Definition lt (a b : double) : bool := SFltb a b.
Definition le (a b : double) : bool := SFleb a b.
Definition gt (a b : double) : bool := lt b a.
Definition ge (a b : double) : bool := le b a.

Definition add (a b : double) : double := SFadd prec emax a b.
Definition sub (a b : double) : double := SFsub prec emax a b.
Definition mul (a b : double) : double := SFmul prec emax a b.
Definition div (a b : double) : double := SFdiv prec emax a b.

(** A value that is neither negative nor the negative zero. *)
Definition not_negative (a : double) : Prop :=
  match a with
  | S754_zero s | S754_infinity s | S754_finite s _ _ => s = false
  | S754_nan => True
  end.

Definition negative_zero (a : double) : bool :=
  match a with S754_zero true => true | _ => false end.

(** [Math.max] and [Math.min] of two arguments: not-a-number as soon as one
    of them is, and the positive zero larger than the negative one. *)
Definition max (a b : double) : double :=
  match SFcompare a b with
  | Some Lt => b
  | Some Gt => a
  | Some Eq => if negative_zero a then b else a
  | None => S754_nan
  end.

Definition min (a b : double) : double :=
  match SFcompare a b with
  | Some Lt => a
  | Some Gt => b
  | Some Eq => if negative_zero a then a else b
  | None => S754_nan
  end.

(** [Math.round]: the nearest integer, halves towards plus infinity; the
    sign of the argument is kept when the result is zero. *)
Definition round (a : double) : double :=
  match a with
  | S754_finite s m e =>
      if (0 <=? e)%Z then a
      else
        match ((2 * cond_Zopp s (Zpos m) + 2 ^ (- e)) / 2 ^ (1 - e))%Z with
        | Z0 => S754_zero s
        | n => binary_normalize prec emax n 0 false
        end
  | _ => a
  end.

End Double.

Declare Scope double_scope.
Delimit Scope double_scope with double.
Notation "a <? b" := (Double.lt a b) : double_scope.
Notation "a <=? b" := (Double.le a b) : double_scope.
Notation "a >? b" := (Double.gt a b) : double_scope.
Notation "a >=? b" := (Double.ge a b) : double_scope.
Notation "a + b" := (Double.add a b) : double_scope.
Notation "a - b" := (Double.sub a b) : double_scope.
Notation "a * b" := (Double.mul a b) : double_scope.
Notation "a / b" := (Double.div a b) : double_scope.

Number Notation SpecFloat.spec_float Double.of_Z Double.to_Z : double_scope.

(** * logic.js over binary64: the impact score *)

Module DoubleLogic.

Import Logic.

Local Open Scope double_scope.

Definition clamp (n min max : Double.double) : Double.double :=
  Double.max min (Double.min max n).

Definition getImpactScore (ctx : WeatherContext) : Double.double :=
  let score : Double.double := 0 in
  let t := Double.ToNumber (temp ctx) in
  let w := Double.ToNumber (windSpeed ctx) in
  let rain := rainMm1h ctx ?? VNum 0 in
  let snow := snowMm1h ctx ?? VNum 0 in
  let score :=
    if Double.ToNumber rain >? 0
    then score + clamp (Double.ToNumber rain * 12) 10 45 else score in
  let score :=
    if Double.ToNumber snow >? 0
    then score + clamp (Double.ToNumber snow * 10) 10 40 else score in
  let score :=
    if negb (Double.isNaN w) && (w >? 6)
    then score + clamp ((w - 6) * 4) 0 25 else score in
  let score :=
    if negb (Double.isNaN t) && (t >=? 28)
    then score + clamp ((t - 27) * 4) 4 25 else score in
  let score :=
    if negb (Double.isNaN t) && (t <=? 2)
    then score + clamp ((3 - t) * 5) 5 30 else score in
  let vis := visibilityM ctx in
  let score :=
    if is_number vis && (Double.ToNumber vis >? 0) && (Double.ToNumber vis <? 2000)
    then score + clamp ((2000 - Double.ToNumber vis) / 80) 5 25 else score in
  clamp (Double.round score) 0 100.

End DoubleLogic.

(** * The additive model of section 4.5 over binary64 *)

Module DoubleSpec.

Import Logic.

Local Open Scope double_scope.

(** The fields of a context the score reads, typed as in section 3. *)
Record Reading : Type := {
  temperature : Double.double;
  wind : Double.double;
  rain : Double.double;
  snow : Double.double;
  visibility : option Double.double
}.

Definition reading (ctx : WeatherContext) : Reading := {|
  temperature := Double.ToNumber (temp ctx);
  wind := Double.ToNumber (windSpeed ctx);
  rain := Double.ToNumber (rainMm1h ctx ?? VNum 0);
  snow := Double.ToNumber (snowMm1h ctx ?? VNum 0);
  visibility :=
    match visibilityM ctx with
    | VNum v => Some (Double.of_num v)
    | _ => None
    end
|}.

Definition clamp (n lo hi : Double.double) : Double.double :=
  Double.max lo (Double.min hi n).

Definition rain_contribution (r : Reading) : Double.double :=
  if rain r >? 0 then clamp (rain r * 12) 10 45 else 0.

Definition snow_contribution (r : Reading) : Double.double :=
  if snow r >? 0 then clamp (snow r * 10) 10 40 else 0.

Definition wind_contribution (r : Reading) : Double.double :=
  if negb (Double.isNaN (wind r)) && (wind r >? 6)
  then clamp ((wind r - 6) * 4) 0 25 else 0.

Definition heat_contribution (r : Reading) : Double.double :=
  if temperature r >=? 28 then clamp ((temperature r - 27) * 4) 4 25 else 0.

Definition cold_contribution (r : Reading) : Double.double :=
  if temperature r <=? 2 then clamp ((3 - temperature r) * 5) 5 30 else 0.

Definition visibility_contribution (r : Reading) : Double.double :=
  match visibility r with
  | Some v =>
      if (v >? 0) && (v <? 2000) then clamp ((2000 - v) / 80) 5 25 else 0
  | None => 0
  end.

(** The sum of the six contributions, in the order of section 4.5. *)
Definition contributions (r : Reading) : Double.double :=
  rain_contribution r + snow_contribution r + wind_contribution r
  + heat_contribution r + cold_contribution r + visibility_contribution r.

(** The sum, rounded, then clamped to [0, 100]. *)
Definition impact_reference (r : Reading) : Double.double :=
  clamp (Double.round (contributions r)) 0 100.

End DoubleSpec.

Import Sample.

(** * Evaluated examples *)

Section Examples.

Import Logic.

Example StringToNumber_examples :
  Num.eqb (StringToNumber "  12.50 ") (Fin (25 # 2)) = true
  /\ Num.eqb (StringToNumber "-3e-2") (Fin (- (3 # 100))) = true
  /\ StringToNumber "0x1F" = 31%num
  /\ StringToNumber "" = 0%num
  /\ StringToNumber "-Infinity" = NInf
  /\ StringToNumber "12px" = NaN
  /\ StringToNumber "." = NaN.
Proof. repeat split. Qed.

Example ToNumber_examples :
  ToNumber VUndef = NaN /\ ToNumber VNull = 0%num
  /\ ToNumber (VArr [VStr " 7 "]) = 7%num /\ ToNumber (VObj []) = NaN.
Proof. repeat split. Qed.

Example normalizeCondition_examples :
  normalizeCondition (VStr "Thunderstorm") = Return "thunderstorm"
  /\ normalizeCondition (VStr "light RAIN and snow") = Return "rain"
  /\ normalizeCondition (VStr "Drizzle") = Return "rain"
  /\ normalizeCondition (VStr "Snow") = Return "snow"
  /\ normalizeCondition (VStr "Clouds") = Return "clouds"
  /\ normalizeCondition (VStr "Clear") = Return "clear"
  /\ normalizeCondition (VStr "Mist") = Return "other"
  /\ normalizeCondition (VBool true) = Throw TypeError.
Proof. repeat split. Qed.

Example buildWeatherContext_example :
  buildWeatherContext
    (VObj [("weather", VArr [VObj [("main", VStr "Rain");
                                   ("description", VStr "light rain")]]);
           ("main", VObj [("temp", VNum 4); ("feels_like", VNum 1)]);
           ("wind", VObj [("speed", VNum 11)]);
           ("visibility", VNum 8000);
           ("rain", VObj [("1h", VNum 1)])])
  = Return {| condition := "rain";
              rawConditionMain := VStr "Rain";
              description := VStr "light rain";
              temp := VNum 4;
              feelsLike := VNum 1;
              windSpeed := VNum 11;
              cloudPct := VNull;
              visibilityM := VNum 8000;
              rainMm1h := VNum 1;
              snowMm1h := VNull |}.
Proof. reflexivity. Qed.

Example getRecommendation_examples :
  getRecommendation (context_of "rain" (VNum 4) (VNum 11)) = branch_rain_cold
  /\ getRecommendation (context_of "rain" (VNum 22) (VNum 2)) = branch_rain_warm
  /\ getRecommendation (context_of "clear" (VNum 28) (VNum 2)) = branch_clear_heat
  /\ getRecommendation (context_of "clouds" (VNum 9) (VNum 2)) = branch_clouds_mild
  /\ getRecommendation (context_of "other" (VNum 15) (VNum 12)) = branch_windy
  /\ getRecommendation (context_of "other" (VNum 15) (VNum 2)) = branch_fallback.
Proof. repeat split. Qed.

Example getImpactScore_examples :
  getImpactScore (context_of "other" VUndef VUndef) = 0%num
  /\ getImpactScore (with_rain (context_of "rain" (VNum 31) (VNum 20)) (VNum 5)) = 86%num
  /\ getImpactScore (with_rain (context_of "rain" (VNum 1) (VNum 20)) (VStr "0.5")) = 45%num.
Proof. repeat split. Qed.

Example ToNumber_binary64_examples :
  Double.ToNumber (VStr "0.1") = SpecFloat.S754_finite false 7205759403792794 (-56)
  /\ Double.ToNumber (VStr "1e309") = SpecFloat.S754_infinity false
  /\ Double.ToNumber (VStr "1e-400") = 0%double
  /\ Double.ToNumber (VStr "9007199254740993") = 9007199254740992%double
  /\ Double.ToNumber VUndef = SpecFloat.S754_nan.
Proof. repeat split. Qed.

Example getImpactScore_binary64_examples :
  DoubleLogic.getImpactScore (context_of "other" VUndef VUndef) = 0%double
  /\ DoubleLogic.getImpactScore (context_of "other" (VNum (Fin (13 # 10))) (VNum 3))
     = 9%double
  /\ DoubleLogic.getImpactScore
       (with_rain (context_of "rain" (VNum 12) (VNum 3))
          (VNum (Fin (12083333333333333 # 10000000000000000))))
     = 15%double
  /\ DoubleLogic.getImpactScore
       (with_rain (context_of "rain" (VNum 31) (VNum 20)) (VNum 5)) = 86%double
  /\ DoubleLogic.getImpactScore
       (with_rain (context_of "rain" (VNum 1) (VNum 20)) (VStr "0.5")) = 45%double.
Proof. repeat split. Qed.

Example getBadges_examples :
  getBadges (context_of "other" VUndef VUndef) = []
  /\ getBadges (with_rain (context_of "rain" (VNum 31) (VNum 3)) (VNum 1))
     = [ {| text := "Nass"; tone := "warn" |}; {| text := "Hitze"; tone := "warn" |} ].
Proof. repeat split. Qed.

Example meteoCodeToTag_examples :
  App.meteoCodeToTag (VNum 0) = "Klar" /\ App.meteoCodeToTag (VNum 2) = "Wolkig"
  /\ App.meteoCodeToTag (VNum 48) = "Nebel" /\ App.meteoCodeToTag (VNum 56) = "Niesel"
  /\ App.meteoCodeToTag (VNum 66) = "Regen" /\ App.meteoCodeToTag (VNum 77) = "Schnee"
  /\ App.meteoCodeToTag (VNum 81) = "Schauer" /\ App.meteoCodeToTag (VNum 99) = "Gewitter"
  /\ App.meteoCodeToTag (VNum 4) = "Wechselhaft" /\ App.meteoCodeToTag (VStr "0") = "Wechselhaft"
  /\ App.meteoCodeToTag VUndef = "Wechselhaft".
Proof. repeat split. Qed.

End Examples.

(** * Theorems *)

(** * Facts about the numbers *)

Section NumOrder.

Lemma le_numbers (a b : num) :
  (a <=? b)%num = true -> isNaN a = false /\ isNaN b = false.
Proof. destruct a, b; simpl; intros H; split; congruence. Qed.

Lemma lt_numbers (a b : num) :
  (a <? b)%num = true -> isNaN a = false /\ isNaN b = false.
Proof. destruct a, b; simpl; intros H; split; congruence. Qed.

Lemma Qle_bool_false (p q : Q) : Qle_bool p q = false <-> q < p.
Proof.
  split; intros H.
  - apply Qnot_le_lt. intros L. apply Qle_bool_iff in L. congruence.
  - destruct (Qle_bool p q) eqn:E; [|reflexivity].
    apply Qle_bool_iff in E. exfalso. apply (Qlt_not_le _ _ H E).
Qed.

Lemma le_Fin (p q : Q) : (Fin p <=? Fin q)%num = true <-> p <= q.
Proof. simpl. apply Qle_bool_iff. Qed.

Lemma lt_not_le (a b : num) :
  isNaN a = false -> isNaN b = false -> (a <? b)%num = negb (b <=? a)%num.
Proof. destruct a, b; simpl; intros; try reflexivity; congruence. Qed.

Lemma le_trans (a b c : num) :
  (a <=? b)%num = true -> (b <=? c)%num = true -> (a <=? c)%num = true.
Proof.
  destruct a, b, c; simpl; intros H1 H2; try reflexivity; try congruence.
  apply Qle_bool_iff in H1, H2. apply Qle_bool_iff. eapply Qle_trans; eassumption.
Qed.

End NumOrder.

(** * The recommendation engine *)

Section Recommendation.

Import Logic.

Ltac distinct_branches :=
  let H := fresh in
  intros H; apply (f_equal summary) in H; vm_compute in H; discriminate H.

(** C2: a context whose condition is thunderstorm gets the thunderstorm
    branch whatever its other fields are, so in particular with a wind speed
    of 10 m/s or more; that branch is neither of the two wind branches. *)
Theorem thunderstorm_has_priority (ctx : WeatherContext) :
  condition ctx = "thunderstorm" ->
  getRecommendation ctx = branch_thunderstorm
  /\ getRecommendation ctx <> branch_windy_cold
  /\ getRecommendation ctx <> branch_windy.
Proof.
  intros H. unfold getRecommendation. rewrite H. simpl.
  split; [reflexivity|]. split; distinct_branches.
Qed.

Lemma thunderstorm_has_priority_witness :
  (ToNumber (windSpeed (context_of "thunderstorm" (VNum 4) (VNum 12))) >=? 10)%num = true
  /\ getRecommendation (context_of "thunderstorm" (VNum 4) (VNum 12)) = branch_thunderstorm.
Proof.
  split; [reflexivity|].
  apply (thunderstorm_has_priority (context_of "thunderstorm" (VNum 4) (VNum 12))).
  reflexivity.
Defined.

(** C5, as stated, fails: a clear sky at exactly 5 degrees with a wind of
    10 m/s is decided by the wind rule, which comes first. *)
Lemma boundary_clear_5_counterexample :
  condition (context_of "clear" (VNum 5) (VNum 10)) = "clear"
  /\ ToNumber (temp (context_of "clear" (VNum 5) (VNum 10))) = 5%num
  /\ getRecommendation (context_of "clear" (VNum 5) (VNum 10)) = branch_windy_cold
  /\ getRecommendation (context_of "clear" (VNum 5) (VNum 10)) <> branch_clear_cold.
Proof.
  do 3 (split; [reflexivity|]). distinct_branches.
Qed.

(** C5, amended: a boundary temperature belongs to the branch of the [<=]
    comparison.  Snow at exactly 0 gives the winter-gear branch and rain at
    exactly 6 the cold-rain branch; when the wind speed is not 10 m/s or
    more, a clear sky at exactly 5 gives the deceptively-cold branch and
    clouds at exactly 8 the cool-cloudy branch; when the condition is none of
    thunderstorm, snow and rain, a wind of exactly 10 m/s at exactly 10
    degrees gives the windy-cold branch. *)
Theorem boundary_temperatures (ctx : WeatherContext) :
  let t := ToNumber (temp ctx) in
  let w := ToNumber (windSpeed ctx) in
  (condition ctx = "snow" -> Num.eqb t 0 = true ->
     getRecommendation ctx = branch_snow_winter_gear)
  /\ (condition ctx = "rain" -> Num.eqb t 6 = true ->
     getRecommendation ctx = branch_rain_cold)
  /\ (condition ctx = "clear" -> (w >=? 10)%num = false -> Num.eqb t 5 = true ->
     getRecommendation ctx = branch_clear_cold)
  /\ (condition ctx = "clouds" -> (w >=? 10)%num = false -> Num.eqb t 8 = true ->
     getRecommendation ctx = branch_clouds_cool)
  /\ (condition ctx <> "thunderstorm" -> condition ctx <> "snow" ->
      condition ctx <> "rain" ->
      Num.eqb w 10 = true -> Num.eqb t 10 = true ->
     getRecommendation ctx = branch_windy_cold).
Proof.
  intros t w. unfold getRecommendation. fold t w.
  assert (E : forall (a : num) (q : Q),
             Num.eqb a (Fin q) = true ->
             (a <=? Fin q)%num = true /\ (a >=? Fin q)%num = true).
  { intros a q. destruct a; simpl; try discriminate. intros Hq.
    apply Qeq_bool_iff in Hq. split; apply Qle_bool_iff; rewrite Hq; apply Qle_refl. }
  repeat split.
  - intros C T. rewrite C. simpl. apply E in T. destruct T as [T _]. now rewrite T.
  - intros C T. rewrite C. simpl. apply E in T. destruct T as [T _]. now rewrite T.
  - intros C W T. rewrite C, W. apply E in T. destruct T as [T _].
    assert (G : (t >=? 28)%num = false).
    { destruct t; simpl in *; try discriminate; try reflexivity.
      apply Qle_bool_iff in T. apply Qle_bool_false. lra. }
    now rewrite T, G.
  - intros C W T. rewrite C, W. simpl. apply E in T. destruct T as [T _]. now rewrite T.
  - intros C1 C2 C3 W T.
    apply String.eqb_neq in C1, C2, C3. rewrite C1, C2, C3.
    apply E in W, T. destruct W as [_ W]. destruct T as [T _]. now rewrite W, T.
Qed.

Lemma boundary_temperatures_witness :
  getRecommendation (context_of "snow" (VNum 0) (VNum 3)) = branch_snow_winter_gear
  /\ getRecommendation (context_of "rain" (VNum 6) (VNum 3)) = branch_rain_cold
  /\ getRecommendation (context_of "clear" (VNum 5) (VNum 3)) = branch_clear_cold
  /\ getRecommendation (context_of "clouds" (VNum 8) (VNum 3)) = branch_clouds_cool
  /\ getRecommendation (context_of "other" (VNum 10) (VNum 10)) = branch_windy_cold.
Proof.
  refine (conj _ (conj _ (conj _ (conj _ _)))).
  - apply (boundary_temperatures (context_of "snow" (VNum 0) (VNum 3))); reflexivity.
  - apply (boundary_temperatures (context_of "rain" (VNum 6) (VNum 3))); reflexivity.
  - apply (boundary_temperatures (context_of "clear" (VNum 5) (VNum 3))); reflexivity.
  - apply (boundary_temperatures (context_of "clouds" (VNum 8) (VNum 3))); reflexivity.
  - apply (boundary_temperatures (context_of "other" (VNum 10) (VNum 10)));
      solve [reflexivity | discriminate].
Defined.

(** C10, as stated, fails: with an absent temperature and a wind of 12 m/s a
    clear sky gets the windy branch, not the pleasant one. *)
Lemma absent_temperature_clear_counterexample :
  condition (context_of "clear" VUndef (VNum 12)) = "clear"
  /\ ToNumber (temp (context_of "clear" VUndef (VNum 12))) = NaN
  /\ getRecommendation (context_of "clear" VUndef (VNum 12)) = branch_windy
  /\ getRecommendation (context_of "clear" VUndef (VNum 12)) <> branch_clear_pleasant.
Proof.
  do 3 (split; [reflexivity|]). distinct_branches.
Qed.

(** C10, amended: when the temperature converts to not-a-number every
    temperature comparison is false, so each split that is reached ends in
    its final else: snow gives the sleet branch and rain the standard-rain
    branch; clear gives the pleasant branch and clouds the mild-cloudy branch
    when the wind speed is not 10 m/s or more, and the windy branch when it
    is. *)
Theorem absent_temperature_takes_final_else (ctx : WeatherContext) :
  ToNumber (temp ctx) = NaN ->
  let w := ToNumber (windSpeed ctx) in
  (forall b : num,
     (ToNumber (temp ctx) <=? b)%num = false /\ (ToNumber (temp ctx) >=? b)%num = false)
  /\ (condition ctx = "snow" -> getRecommendation ctx = branch_snow_sleet)
  /\ (condition ctx = "rain" -> getRecommendation ctx = branch_rain_standard)
  /\ (condition ctx = "clear" ->
        getRecommendation ctx
        = if (w >=? 10)%num then branch_windy else branch_clear_pleasant)
  /\ (condition ctx = "clouds" ->
        getRecommendation ctx
        = if (w >=? 10)%num then branch_windy else branch_clouds_mild).
Proof.
  intros T w. unfold getRecommendation. fold w. rewrite T.
  split; [intros b; destruct b; split; reflexivity|].
  refine (conj _ (conj _ (conj _ _)));
    intros C; rewrite C; simpl; destruct (w >=? 10)%num; reflexivity.
Qed.

Lemma absent_temperature_takes_final_else_witness :
  getRecommendation (context_of "snow" VUndef (VNum 3)) = branch_snow_sleet
  /\ getRecommendation (context_of "clear" VUndef (VNum 3)) = branch_clear_pleasant.
Proof.
  split.
  - apply (absent_temperature_takes_final_else (context_of "snow" VUndef (VNum 3)));
      reflexivity.
  - apply (absent_temperature_takes_final_else (context_of "clear" VUndef (VNum 3)) eq_refl).
    reflexivity.
Defined.

End Recommendation.

(** * The impact score *)

Section ImpactScore.

Import Logic Spec.

Ltac qprop :=
  repeat match goal with
  | H : Qle_bool _ _ = true |- _ => apply Qle_bool_iff in H
  | H : Qle_bool _ _ = false |- _ => apply Qle_bool_false in H
  | H : negb (Qle_bool _ _) = true |- _ => apply negb_true_iff in H
  | H : negb (Qle_bool _ _) = false |- _ => apply negb_false_iff in H
  end.

(** A clamp between two finite bounds is finite and within the bounds. *)
Lemma clamp_Fin (n : num) (lo hi : Q) :
  isNaN n = false -> lo <= hi ->
  exists q, clamp n (Fin lo) (Fin hi) = Fin q /\ lo <= q <= hi.
Proof.
  intros N L. unfold clamp. destruct n; try discriminate; simpl.
  - exists lo. split; [reflexivity|]. lra.
  - destruct (Qle_bool hi q) eqn:E1; simpl.
    + destruct (Qle_bool hi lo) eqn:E2; simpl; qprop; eexists; split; try reflexivity; lra.
    + destruct (Qle_bool q lo) eqn:E2; simpl; qprop; eexists; split; try reflexivity; lra.
  - destruct (Qle_bool hi lo) eqn:E2; simpl; qprop; eexists; split; try reflexivity; lra.
Qed.

(** A clamp between finite bounds does not decrease when its argument
    grows. *)
Lemma clamp_mono (a b : num) (lo hi : Q) :
  (a <=? b)%num = true -> lo <= hi ->
  finite_part (clamp a (Fin lo) (Fin hi)) <= finite_part (clamp b (Fin lo) (Fin hi)).
Proof.
  intros AB L. unfold clamp.
  destruct a as [| |p|], b as [| |q|]; simpl in AB; try discriminate; simpl;
    repeat match goal with
    | |- context [Qle_bool ?x ?y] =>
        let E := fresh "E" in destruct (Qle_bool x y) eqn:E; simpl
    end; qprop; lra.
Qed.

Lemma mul_number (a : num) (k : Q) :
  isNaN a = false -> 0 < k -> isNaN (a * Fin k)%num = false.
Proof.
  intros N K. destruct a; try discriminate; simpl; try reflexivity;
    unfold scale_inf, sign; rewrite (proj1 (Qlt_alt 0 k) K); reflexivity.
Qed.

Lemma div_number (a : num) (k : Q) :
  isNaN a = false -> 0 < k -> isNaN (a / Fin k)%num = false.
Proof.
  intros N K. destruct a; try discriminate; simpl;
    unfold sign; rewrite (proj1 (Qlt_alt 0 k) K); reflexivity.
Qed.

Lemma sub_number_l (a : num) (k : Q) :
  isNaN a = false -> isNaN (a - Fin k)%num = false.
Proof. destruct a; simpl; congruence. Qed.

Lemma sub_number_r (a : num) (k : Q) :
  isNaN a = false -> isNaN (Fin k - a)%num = false.
Proof. destruct a; simpl; congruence. Qed.


Lemma finite_nonneg_zero : finite_nonneg 0%num.
Proof. split; [reflexivity|]. simpl. lra. Qed.

Lemma finite_nonneg_clamp (n : num) (lo hi : Q) :
  isNaN n = false -> 0 <= lo -> lo <= hi -> finite_nonneg (clamp n (Fin lo) (Fin hi)).
Proof.
  intros N L0 L. destruct (clamp_Fin n lo hi N L) as (q & E & B).
  rewrite E. split; [reflexivity|]. simpl. lra.
Qed.

Lemma rain_contribution_finite (r : Reading) : finite_nonneg (rain_contribution r).
Proof.
  unfold rain_contribution. destruct (rain r >? 0)%num eqn:G.
  - unfold Num.gt in G. apply lt_numbers in G. apply finite_nonneg_clamp; try lra.
    apply mul_number; [tauto | lra].
  - apply finite_nonneg_zero.
Qed.

Lemma snow_contribution_finite (r : Reading) : finite_nonneg (snow_contribution r).
Proof.
  unfold snow_contribution. destruct (snow r >? 0)%num eqn:G.
  - unfold Num.gt in G. apply lt_numbers in G. apply finite_nonneg_clamp; try lra.
    apply mul_number; [tauto | lra].
  - apply finite_nonneg_zero.
Qed.

Lemma wind_contribution_finite (r : Reading) : finite_nonneg (wind_contribution r).
Proof.
  unfold wind_contribution.
  destruct (negb (isNaN (wind r)) && (wind r >? 6)%num) eqn:G.
  - apply andb_true_iff in G. destruct G as [N _]. apply negb_true_iff in N.
    apply finite_nonneg_clamp; try lra.
    apply mul_number; [|lra]. now apply sub_number_l.
  - apply finite_nonneg_zero.
Qed.

Lemma heat_contribution_finite (r : Reading) : finite_nonneg (heat_contribution r).
Proof.
  unfold heat_contribution.
  destruct (negb (isNaN (temperature r)) && (temperature r >=? 28)%num) eqn:G.
  - apply andb_true_iff in G. destruct G as [N _]. apply negb_true_iff in N.
    apply finite_nonneg_clamp; try lra.
    apply mul_number; [|lra]. now apply sub_number_l.
  - apply finite_nonneg_zero.
Qed.

Lemma cold_contribution_finite (r : Reading) : finite_nonneg (cold_contribution r).
Proof.
  unfold cold_contribution.
  destruct (negb (isNaN (temperature r)) && (temperature r <=? 2)%num) eqn:G.
  - apply andb_true_iff in G. destruct G as [N _]. apply negb_true_iff in N.
    apply finite_nonneg_clamp; try lra.
    apply mul_number; [|lra]. now apply sub_number_r.
  - apply finite_nonneg_zero.
Qed.

Lemma visibility_contribution_finite (r : Reading) :
  finite_nonneg (visibility_contribution r).
Proof.
  unfold visibility_contribution. destruct (visibility r) as [v|].
  - destruct ((v >? 0)%num && (v <? 2000)%num) eqn:G.
    + apply andb_true_iff in G. destruct G as [G _]. unfold Num.gt in G. apply lt_numbers in G.
      apply finite_nonneg_clamp; try lra.
      apply div_number; [|lra]. apply sub_number_r. tauto.
    + apply finite_nonneg_zero.
  - apply finite_nonneg_zero.
Qed.

Lemma clamp_of_Z (z : Z) :
  clamp (Num.of_Z z) 0 100 = Num.of_Z (Z.max 0 (Z.min 100 z)).
Proof.
  unfold clamp, Num.max, Num.min, Num.of_Z. cbn [Num.lt].
  unfold Qle_bool. cbn [Qnum Qden inject_Z]. rewrite !Z.mul_1_r.
  destruct (Z.leb_spec 100 z) as [L1|L1]; cbn [negb Num.lt];
    unfold Qle_bool; cbn [Qnum Qden inject_Z]; rewrite ?Z.mul_1_r.
  - cbn. unfold inject_Z. do 2 f_equal. lia.
  - destruct (Z.leb_spec z 0) as [L2|L2]; cbn [negb]; unfold inject_Z;
      do 2 f_equal; lia.
Qed.

(** One [score += ...] step under its guard. *)
Lemma accumulate (a : Q) (g : bool) (X : num) :
  finite_nonneg (if g then X else 0%num) ->
  exists a',
    (if g then Fin a + X else Fin a)%num = Fin a'
    /\ a' == a + finite_part (if g then X else 0%num).
Proof.
  intros [E _]. destruct g.
  - rewrite E. simpl. eexists. split; [reflexivity|]. reflexivity.
  - exists a. split; [reflexivity|]. simpl. lra.
Qed.

(** The visibility guard of the code and the typed field of the model. *)
Lemma visibility_guard (vis : value) :
  (if is_number vis && (ToNumber vis >? 0)%num && (ToNumber vis <? 2000)%num
   then clamp ((2000 - ToNumber vis) / 80) 5 25 else 0%num)
  = match match vis with VNum v => Some v | _ => None end with
    | Some v =>
        if (v >? 0)%num && (v <? 2000)%num
        then clamp ((2000 - v) / 80) 5 25 else 0%num
    | None => 0%num
    end.
Proof. destruct vis; reflexivity. Qed.

(** The code in closed form. *)
Lemma getImpactScore_total (ctx : WeatherContext) :
  getImpactScore ctx
  = Num.of_Z (Z.max 0 (Z.min 100 (Qfloor (total (reading ctx) + (1 # 2))))).
Proof.
  pose proof (rain_contribution_finite (reading ctx)) as H1.
  pose proof (snow_contribution_finite (reading ctx)) as H2.
  pose proof (wind_contribution_finite (reading ctx)) as H3.
  pose proof (heat_contribution_finite (reading ctx)) as H4.
  pose proof (cold_contribution_finite (reading ctx)) as H5.
  pose proof (visibility_contribution_finite (reading ctx)) as H6.
  unfold total.
  unfold rain_contribution, snow_contribution, wind_contribution,
    heat_contribution, cold_contribution, visibility_contribution in *.
  cbn [reading temperature wind rain snow visibility] in *.
  rewrite <- visibility_guard in *.
  unfold getImpactScore. cbv zeta.
  repeat match goal with
  | H : finite_nonneg (if ?g then ?X else _)
    |- context [if ?g then (Fin ?a + ?X)%num else Fin ?a] =>
      let a' := fresh "a" in
      let E := fresh "E" in
      let Q := fresh "Q" in
      destruct (accumulate a g X H) as (a' & E & Q); rewrite E; clear E
  end.
  cbn [Num.round]. rewrite clamp_of_Z. do 3 f_equal.
  apply Qfloor_comp. lra.
Qed.





End ImpactScore.

(** * The impact score over binary64 *)

Section ImpactScoreDouble.

Import SpecFloat Logic.

Local Open Scope double_scope.

Lemma binary_round_aux_not_negative (m e : Z) (l : location) :
  Double.not_negative (binary_round_aux Double.prec Double.emax false m e l).
Proof.
  unfold binary_round_aux.
  destruct (shr_fexp Double.prec Double.emax m e l) as [mrs' e'].
  destruct (shr_fexp Double.prec Double.emax _ e' loc_Exact) as [mrs'' e''].
  destruct (shr_m mrs''); [reflexivity | | exact I].
  destruct (Z.leb e'' _); reflexivity.
Qed.

Lemma binary_round_not_negative (m : positive) (e : Z) :
  Double.not_negative (binary_round Double.prec Double.emax false m e).
Proof.
  unfold binary_round. destruct (shl_align m e _) as [mz ez].
  apply binary_round_aux_not_negative.
Qed.

(** A sum of two values that are not negative is not negative. *)
Lemma add_not_negative (a b : Double.double) :
  Double.not_negative a -> Double.not_negative b -> Double.not_negative (a + b).
Proof.
  destruct a as [sa|sa| |sa ma ea], b as [sb|sb| |sb mb eb];
    cbn [Double.not_negative]; intros A B; subst; try exact I; try reflexivity.
  unfold Double.add, SFadd. cbn [cond_Zopp Z.add binary_normalize].
  apply binary_round_not_negative.
Qed.

Lemma add_zero_r (a : Double.double) : Double.not_negative a -> a + 0 = a.
Proof. destruct a; cbn [Double.not_negative]; intros A; subst; reflexivity. Qed.

Lemma add_zero_l (a : Double.double) : Double.not_negative a -> 0 + a = a.
Proof. destruct a; cbn [Double.not_negative]; intros A; subst; reflexivity. Qed.

(** A maximum with a value that is not negative is not negative. *)
Lemma max_not_negative (lo n : Double.double) :
  Double.not_negative lo -> Double.not_negative (Double.max lo n).
Proof.
  destruct lo as [sa|sa| |sa ma ea], n as [sb|sb| |sb mb eb];
    cbn [Double.not_negative]; intros A; subst; try exact I;
    unfold Double.max; cbn [SFcompare Double.negative_zero Double.not_negative];
    try reflexivity;
    try (destruct sb; reflexivity).
  destruct sb; [reflexivity|].
  destruct (ea ?= eb)%Z; try reflexivity.
  destruct (Pos.compare_cont Eq ma mb); reflexivity.
Qed.

Lemma clamp_not_negative (n lo hi : Double.double) :
  Double.not_negative lo -> Double.not_negative (DoubleSpec.clamp n lo hi).
Proof. apply max_not_negative. Qed.

(** One [score += ...] step under its guard. *)
Lemma accumulate_double (s x : Double.double) (g : bool) :
  Double.not_negative s ->
  (if g then s + x else s) = s + (if g then x else 0).
Proof.
  intros S. destruct g; [reflexivity|]. symmetry. now apply add_zero_r.
Qed.

Lemma contribution_not_negative (g : bool) (n lo hi : Double.double) :
  Double.not_negative lo ->
  Double.not_negative (if g then DoubleSpec.clamp n lo hi else 0).
Proof.
  intros L. destruct g; [now apply clamp_not_negative | reflexivity].
Qed.

(** Six steps [score += ...], each under its guard, add up the six terms,
    a term whose guard fails counting as zero. *)
Lemma accumulate_six (g1 g2 g3 g4 g5 g6 : bool) (x1 x2 x3 x4 x5 x6 : Double.double) :
  Double.not_negative (if g1 then x1 else 0) ->
  Double.not_negative (if g2 then x2 else 0) ->
  Double.not_negative (if g3 then x3 else 0) ->
  Double.not_negative (if g4 then x4 else 0) ->
  Double.not_negative (if g5 then x5 else 0) ->
  (let score := 0 in
   let score := if g1 then score + x1 else score in
   let score := if g2 then score + x2 else score in
   let score := if g3 then score + x3 else score in
   let score := if g4 then score + x4 else score in
   let score := if g5 then score + x5 else score in
   let score := if g6 then score + x6 else score in
   score)
  = (if g1 then x1 else 0) + (if g2 then x2 else 0) + (if g3 then x3 else 0)
    + (if g4 then x4 else 0) + (if g5 then x5 else 0) + (if g6 then x6 else 0).
Proof.
  intros N1 N2 N3 N4 N5. cbv zeta.
  rewrite (accumulate_double 0 x1 g1) by reflexivity.
  rewrite add_zero_l by assumption.
  set (c1 := if g1 then x1 else 0) in *.
  rewrite (accumulate_double c1 x2 g2) by assumption.
  set (c2 := if g2 then x2 else 0) in *.
  pose proof (add_not_negative _ _ N1 N2) as S2.
  rewrite (accumulate_double (c1 + c2) x3 g3) by assumption.
  set (c3 := if g3 then x3 else 0) in *.
  pose proof (add_not_negative _ _ S2 N3) as S3.
  rewrite (accumulate_double (c1 + c2 + c3) x4 g4) by assumption.
  set (c4 := if g4 then x4 else 0) in *.
  pose proof (add_not_negative _ _ S3 N4) as S4.
  rewrite (accumulate_double (c1 + c2 + c3 + c4) x5 g5) by assumption.
  set (c5 := if g5 then x5 else 0) in *.
  pose proof (add_not_negative _ _ S4 N5) as S5.
  rewrite (accumulate_double (c1 + c2 + c3 + c4 + c5) x6 g6) by assumption.
  reflexivity.
Qed.

(** No comparison holds of a value that is not a number. *)
Lemma le_number_l (a b : Double.double) :
  negb (Double.isNaN a) && (a <=? b) = (a <=? b).
Proof. destruct a; reflexivity. Qed.

Lemma le_number_r (a b : Double.double) :
  negb (Double.isNaN b) && (a <=? b) = (a <=? b).
Proof. destruct b; try reflexivity. destruct a; reflexivity. Qed.

(** The visibility guard of the code and the typed field of the model. *)
Lemma visibility_guard_double (vis : value) :
  (if is_number vis && (Double.ToNumber vis >? 0) && (Double.ToNumber vis <? 2000)
   then DoubleSpec.clamp ((2000 - Double.ToNumber vis) / 80) 5 25 else 0)
  = match match vis with VNum v => Some (Double.of_num v) | _ => None end with
    | Some v =>
        if (v >? 0) && (v <? 2000)
        then DoubleSpec.clamp ((2000 - v) / 80) 5 25 else 0
    | None => 0
    end.
Proof. destruct vis; reflexivity. Qed.

(** C3: the impact score is the additive model of section 4.5: the six
    clamped contributions (rain, snow, wind, heat, cold, visibility), summed
    in that order, rounded and clamped to [0, 100], every operation being
    the binary64 one; the example context of section 8 scores exactly 20. *)
Theorem impact_score_is_additive_model :
  (forall ctx : WeatherContext,
      DoubleLogic.getImpactScore ctx
      = DoubleSpec.impact_reference (DoubleSpec.reading ctx))
  /\ (forall (c : string) (raw desc feels cloud : value),
        DoubleLogic.getImpactScore (score_example c raw desc feels cloud) = 20).
Proof.
  split.
  - intros ctx.
    unfold DoubleSpec.impact_reference, DoubleSpec.contributions,
      DoubleSpec.rain_contribution, DoubleSpec.snow_contribution,
      DoubleSpec.wind_contribution, DoubleSpec.heat_contribution,
      DoubleSpec.cold_contribution, DoubleSpec.visibility_contribution.
    cbn [DoubleSpec.reading DoubleSpec.temperature DoubleSpec.wind
         DoubleSpec.rain DoubleSpec.snow DoubleSpec.visibility].
    rewrite <- visibility_guard_double.
    unfold DoubleLogic.getImpactScore. cbv zeta.
    change DoubleLogic.clamp with DoubleSpec.clamp.
    unfold Double.ge. rewrite le_number_r, le_number_l.
    f_equal. f_equal.
    apply accumulate_six; apply contribution_not_negative; reflexivity.
  - intros. reflexivity.
Qed.

End ImpactScoreDouble.

(** * Badges and the insight selector *)

Section BadgesInsights.

Import Logic.

(** C6: for the context of the badge example (rain 3 mm, no snow, visibility
    500 m, wind 12 m/s, temperature -2) the badges are exactly four, in this
    order: heavy rain (danger), poor visibility (warn), very windy (warn),
    frost (warn). *)
Theorem badges_of_example (c : string) (raw desc feels : value) :
  getBadges (badge_example c raw desc feels)
  = [ {| text := "Starker Regen"; tone := "danger" |};
      {| text := "Sicht schlecht"; tone := "warn" |};
      {| text := "Sehr windig"; tone := "warn" |};
      {| text := "Frost"; tone := "warn" |} ].
Proof. reflexivity. Qed.

Lemma elem_at_index (xs : list value) (z : Z) :
  (0 <= z < Z.of_nat (List.length xs))%Z ->
  elem_at xs (Num.of_Z z) = nth (Z.to_nat z) xs VUndef.
Proof.
  intros B. unfold elem_at, Num.of_Z. rewrite Qfloor_Z.
  rewrite (proj2 (Qeq_bool_iff _ _) (Qeq_refl _)).
  destruct (Z.leb_spec 0 z); [reflexivity | lia].
Qed.

(** The index [Math.floor(random * length)] is within the pool. *)
Lemma random_index_in_range (random : Q) (n : nat) :
  0 <= random < 1 -> (0 < n)%nat ->
  (0 <= Qfloor (random * inject_Z (Z.of_nat n)) < Z.of_nat n)%Z.
Proof.
  intros [R0 R1] N.
  assert (P : 0 < inject_Z (Z.of_nat n)).
  { change 0 with (inject_Z 0). rewrite <- Zlt_Qlt. lia. }
  split.
  - change 0%Z with (Qfloor 0). apply Qfloor_resp_le. nra.
  - pose proof (Qfloor_le (random * inject_Z (Z.of_nat n))) as F.
    rewrite Zlt_Qlt. eapply Qle_lt_trans; [exact F|]. nra.
Qed.

(** C9: from a non-empty pool, whatever the random number in [0, 1) is, the
    insight selector returns a member of the pool; from an empty pool it
    returns the empty string. *)
Theorem pickDailyInsight_member (random : Q) (pool : list value) :
  0 <= random < 1 ->
  (pool <> [] -> In (pickDailyInsight random (VArr pool)) pool)
  /\ pickDailyInsight random (VArr []) = VStr "".
Proof.
  intros R. split; [|reflexivity].
  intros NE. unfold pickDailyInsight.
  destruct pool as [|x xs]; [congruence|].
  set (pool := x :: xs).
  assert (L : (0 < List.length pool)%nat) by (simpl; lia).
  destruct (Nat.eqb_spec (List.length pool) 0) as [E|_]; [lia|].
  cbn [Num.mul Num.floor Num.of_Z].
  pose proof (random_index_in_range random (List.length pool) R L) as B.
  fold (Num.of_Z (Qfloor (random * inject_Z (Z.of_nat (List.length pool))))).
  rewrite elem_at_index by exact B.
  apply nth_In. lia.
Qed.

Lemma pickDailyInsight_member_witness :
  In (pickDailyInsight (2 # 3) (VArr (map VStr (insightPool branch_windy))))
     (map VStr (insightPool branch_windy)).
Proof.
  apply (pickDailyInsight_member (2 # 3) (map VStr (insightPool branch_windy))).
  - split; [apply Qle_bool_iff | apply Qlt_alt]; reflexivity.
  - discriminate.
Defined.

End BadgesInsights.

(** * The condition normalizer *)

Section Normalizer.

Import Logic Spec.

Local Open Scope string_scope.

Lemma prefix_app (p s : string) :
  prefix p s = true <-> exists r, s = (p ++ r)%string.
Proof.
  revert s. induction p as [|a p IH]; intros s.
  - split; [intros _; exists s; reflexivity|]. intros _. destruct s; reflexivity.
  - destruct s as [|b s]; simpl.
    + split; [discriminate|]. intros [r H]. discriminate.
    + destruct (ascii_dec a b) as [->|N].
      * rewrite IH. split; intros [r H]; exists r; [now subst | now inversion H].
      * split; [discriminate|]. intros [r H]. inversion H. congruence.
Qed.

Lemma includes_app (s pat : string) :
  includes s pat = true <-> exists pre post, s = (pre ++ pat ++ post)%string.
Proof.
  induction s as [|c s IH]; cbn [includes].
  - destruct (prefix pat "") eqn:P.
    + split; [|reflexivity]. intros _. apply prefix_app in P.
      destruct P as [r P]. exists "", r. exact P.
    + split; [discriminate|]. intros (pre & post & H).
      destruct pre; [|discriminate]. simpl in H.
      assert (prefix pat "" = true) by (apply prefix_app; now exists post).
      congruence.
  - destruct (prefix pat (String c s)) eqn:P.
    + split; [|reflexivity]. intros _. apply prefix_app in P.
      destruct P as [r P]. exists "", r. exact P.
    + rewrite IH. split.
      * intros (pre & post & H). exists (String c pre), post. simpl. now rewrite H.
      * intros (pre & post & H). destruct pre as [|d pre].
        -- simpl in H.
           assert (prefix pat (String c s) = true) by (apply prefix_app; now exists post).
           congruence.
        -- simpl in H. inversion H. now exists pre, post.
Qed.

Lemma toLowerCase_app (a b : string) :
  toLowerCase (a ++ b) = (toLowerCase a ++ toLowerCase b)%string.
Proof. induction a as [|c a IH]; simpl; [reflexivity | now rewrite IH]. Qed.

Lemma toLowerCase_split (s a b : string) :
  toLowerCase s = (a ++ b)%string ->
  exists a' b', s = (a' ++ b')%string /\ toLowerCase a' = a /\ toLowerCase b' = b.
Proof.
  revert s. induction a as [|c a IH]; intros s H.
  - exists "", s. auto.
  - destruct s as [|d s]; [discriminate|]. simpl in H. inversion H as [[Hc Hs]].
    destruct (IH s Hs) as (a' & b' & E & A & B).
    exists (String d a'), b'. simpl. now rewrite E, A.
Qed.

(** The test the code makes is the case-insensitive substring match. *)
Lemma includes_contains_ci (s kw : string) :
  includes (toLowerCase s) kw = true <-> contains_ci kw s.
Proof.
  rewrite includes_app. unfold contains_ci. split.
  - intros (pre & post & H).
    destruct (toLowerCase_split _ _ _ H) as (pre' & rest & E & P & R).
    destruct (toLowerCase_split _ _ _ R) as (w & post' & E' & W & _).
    exists pre', w, post'. now rewrite E, E'.
  - intros (pre & w & post & E & W).
    exists (toLowerCase pre), (toLowerCase post).
    now rewrite E, !toLowerCase_app, W.
Qed.

Lemma not_includes_contains_ci (s kw : string) :
  includes (toLowerCase s) kw = false <-> ~ contains_ci kw s.
Proof.
  rewrite <- includes_contains_ci. destruct (includes (toLowerCase s) kw);
    split; congruence.
Qed.

(** On a text the normalizer follows the priority table. *)
Lemma normalizeCondition_text (s : string) :
  exists c, normalizeCondition (VStr s) = Return c /\ normalize_table s c.
Proof.
  assert (E : or_else (VStr s) (VStr "") = VStr s) by (destruct s; reflexivity).
  unfold normalizeCondition. rewrite E. unfold normalize_table.
  destruct (includes (toLowerCase s) "thunder") eqn:T;
    [apply includes_contains_ci in T | apply not_includes_contains_ci in T].
  { eexists. split; [reflexivity|]. tauto. }
  destruct (includes (toLowerCase s) "drizzle") eqn:D;
    [apply includes_contains_ci in D | apply not_includes_contains_ci in D];
    cbn [orb].
  { eexists. split; [reflexivity|]. tauto. }
  destruct (includes (toLowerCase s) "rain") eqn:R;
    [apply includes_contains_ci in R | apply not_includes_contains_ci in R].
  { eexists. split; [reflexivity|]. tauto. }
  destruct (includes (toLowerCase s) "snow") eqn:S;
    [apply includes_contains_ci in S | apply not_includes_contains_ci in S].
  { eexists. split; [reflexivity|]. tauto. }
  destruct (includes (toLowerCase s) "cloud") eqn:C;
    [apply includes_contains_ci in C | apply not_includes_contains_ci in C].
  { eexists. split; [reflexivity|]. tauto. }
  destruct (includes (toLowerCase s) "clear") eqn:L;
    [apply includes_contains_ci in L | apply not_includes_contains_ci in L].
  { eexists. split; [reflexivity|]. tauto. }
  eexists. split; [reflexivity|]. tauto.
Qed.

(** C8: the normalizer is total over a label that is a text or absent, and
    its result is the one of the first-match priority table under
    case-insensitive substring matching: thunder, then drizzle or rain, then
    snow, then cloud, then clear, and other for everything else; an absent
    label, the empty text and the label Haze give other. *)
Theorem normalizeCondition_priority_table :
  (forall label : option string,
     exists c, normalizeCondition (label_value label) = Return c
               /\ normalize_table (label_text label) c)
  /\ normalizeCondition VUndef = Return "other"
  /\ normalizeCondition VNull = Return "other"
  /\ normalizeCondition (VStr "") = Return "other"
  /\ normalizeCondition (VStr "Haze") = Return "other".
Proof.
  split; [|repeat split].
  intros [s|]; simpl.
  - apply normalizeCondition_text.
  - apply (normalizeCondition_text "").
Qed.

(** A label that is truthy and no text makes the normalizer throw. *)
Lemma normalizeCondition_throws (v : value) :
  normalizeCondition v = Throw TypeError
  <-> truthy v = true /\ forall s, v <> VStr s.
Proof.
  unfold normalizeCondition, or_else. destruct (truthy v) eqn:T.
  - destruct v; try discriminate; try (split; [intros _; split; [reflexivity|discriminate] | reflexivity]).
    split.
    + repeat match goal with |- context [if ?b then _ else _] => destruct b end;
        discriminate.
    + intros [_ H]. now contradiction (H s).
  - split; [|intros [H _]; discriminate].
    repeat match goal with |- context [if ?b then _ else _] => destruct b end;
      discriminate.
Qed.

End Normalizer.

(** * The context builder *)

Section ContextBuilder.

Import Logic Spec.

(** C1, as stated, fails: from the empty payload the builder returns a
    context whose rain and snow depths are [null], not 0, and whose
    temperature and wind speed are [undefined], not the not-a-number value;
    and on a payload whose condition label is a number it throws. *)
Lemma buildWeatherContext_defaults_counterexample :
  (exists ctx,
     buildWeatherContext (VObj []) = Return ctx
     /\ rainMm1h ctx <> VNum 0 /\ snowMm1h ctx <> VNum 0
     /\ temp ctx <> VNum NaN /\ windSpeed ctx <> VNum NaN)
  /\ buildWeatherContext numeric_label_payload = Throw TypeError.
Proof.
  split; [|reflexivity].
  exists default_context. split; [reflexivity|].
  refine (conj _ (conj _ (conj _ _))); discriminate.
Qed.

Lemma coalesce_nullish (v d : value) : nullish v = true -> v ?? d = d.
Proof. unfold coalesce. now intros ->. Qed.

(** C1, amended: on a payload whose condition label is falsy or a text the
    builder returns a context and does not throw.  In it an absent
    temperature, feels-like temperature or wind speed is [undefined], which
    [Number] turns into not-a-number; a rain or snow depth that is absent or
    [null] is [null], which [?? 0] reads as 0; a cloud percentage or
    visibility that is absent or [null] is [null]; a falsy label gives the
    condition other; and a payload with none of the fields gives the default
    context. *)
Theorem buildWeatherContext_defaults (api : value) :
  truthy (payload_label api) = false \/ (exists s, payload_label api = VStr s) ->
  exists ctx,
    buildWeatherContext api = Return ctx
    /\ (api ?. "main" ?. "temp" = VUndef ->
        temp ctx = VUndef /\ ToNumber (temp ctx) = NaN)
    /\ (api ?. "main" ?. "feels_like" = VUndef ->
        feelsLike ctx = VUndef /\ ToNumber (feelsLike ctx) = NaN)
    /\ (api ?. "wind" ?. "speed" = VUndef ->
        windSpeed ctx = VUndef /\ ToNumber (windSpeed ctx) = NaN)
    /\ (nullish (api ?. "rain" ?. "1h") = true ->
        rainMm1h ctx = VNull /\ ToNumber (rainMm1h ctx ?? VNum 0) = 0%num)
    /\ (nullish (api ?. "snow" ?. "1h") = true ->
        snowMm1h ctx = VNull /\ ToNumber (snowMm1h ctx ?? VNum 0) = 0%num)
    /\ (nullish (api ?. "clouds" ?. "all") = true -> cloudPct ctx = VNull)
    /\ (nullish (api ?. "visibility") = true -> visibilityM ctx = VNull)
    /\ (truthy (payload_label api) = false -> condition ctx = "other")
    /\ (missing_every_field api -> ctx = default_context).
Proof.
  intros L.
  assert (N : exists c, normalizeCondition (payload_label api) = Return c
                        /\ (truthy (payload_label api) = false -> c = "other")).
  { destruct L as [F | [s E]].
    - exists "other". split; [|reflexivity].
      unfold normalizeCondition, or_else. now rewrite F.
    - rewrite E. destruct (normalizeCondition_text s) as (c & R & _).
      exists c. split; [exact R|]. intros F. destruct s; [|discriminate].
      now inversion R. }
  destruct N as (c & R & O).
  unfold buildWeatherContext. fold (payload_label api). rewrite R.
  cbn [bind]. eexists. split; [reflexivity|].
  cbn [temp feelsLike windSpeed rainMm1h snowMm1h cloudPct visibilityM condition].
  refine (conj _ (conj _ (conj _ (conj _ (conj _ (conj _ (conj _ (conj _ _)))))))).
  - intros E. rewrite E. split; reflexivity.
  - intros E. rewrite E. split; reflexivity.
  - intros E. rewrite E. split; reflexivity.
  - intros E. rewrite (coalesce_nullish _ VNull E). split; reflexivity.
  - intros E. rewrite (coalesce_nullish _ VNull E). split; reflexivity.
  - intros E. apply (coalesce_nullish _ VNull E).
  - intros E. apply (coalesce_nullish _ VNull E).
  - exact O.
  - intros (W & M & Wi & C & V & Ra & S).
    assert (F : truthy (payload_label api) = false).
    { unfold payload_label. now rewrite W. }
    rewrite (O F). unfold or_else at 1. rewrite F.
    rewrite W, M, Wi, C, V, Ra, S. reflexivity.
Qed.

(** The builder throws exactly when the condition label is truthy and no
    text. *)
Lemma buildWeatherContext_throws (api : value) :
  buildWeatherContext api = Throw TypeError
  <-> truthy (payload_label api) = true /\ forall s, payload_label api <> VStr s.
Proof.
  rewrite <- normalizeCondition_throws.
  unfold buildWeatherContext. fold (payload_label api).
  destruct (normalizeCondition (payload_label api)) as [c|e]; cbn [bind].
  - split; discriminate.
  - destruct e. tauto.
Qed.

Lemma buildWeatherContext_defaults_witness :
  exists ctx, buildWeatherContext (VObj []) = Return ctx /\ ctx = default_context.
Proof.
  destruct (buildWeatherContext_defaults (VObj []) (or_introl eq_refl))
    as (ctx & E & _ & _ & _ & _ & _ & _ & _ & _ & D).
  exists ctx. split; [exact E|].
  apply D. unfold missing_every_field. simpl. tauto.
Defined.

End ContextBuilder.

(** * The forecast window *)

Section ForecastWindow.

Import Spec.

Lemma Qeq_bool_integer (q : Q) (k : Z) :
  Qeq_bool q (inject_Z k)
  = Qeq_bool q (inject_Z (Qfloor q)) && (Qfloor q =? k)%Z.
Proof.
  destruct (Qeq_bool q (inject_Z k)) eqn:E.
  - apply Qeq_bool_iff in E.
    assert (F : Qfloor q = k) by (rewrite (Qfloor_comp _ _ E); apply Qfloor_Z).
    rewrite F, Z.eqb_refl, andb_true_r. symmetry. now apply Qeq_bool_iff.
  - destruct (Qeq_bool q (inject_Z (Qfloor q))) eqn:I; [|reflexivity].
    destruct (Z.eqb_spec (Qfloor q) k) as [F|F]; [|reflexivity].
    rewrite F in I. congruence.
Qed.

(** The tag the code gives is the tag of the table, for every value. *)
Lemma meteoCodeToTag_table (code : value) : App.meteoCodeToTag code = tag_of code.
Proof.
  destruct code as [| | |n| | |]; try reflexivity.
  destruct n as [| |q|]; try reflexivity.
  unfold App.meteoCodeToTag, tag_of, integer_of, includes_num, existsb,
    same_value_zero_num, strict_eq_num, Num.of_Z, Num.eqb.
  change (Qeq_bool q 0) with (Qeq_bool q (inject_Z 0)). cbn [isNaN andb].
  rewrite !orb_false_r.
  pose proof (Qeq_bool_integer q) as R.
  set (b := Qeq_bool q (inject_Z (Qfloor q))) in *.
  set (z := Qfloor q) in *. clearbody b z.
  rewrite !R. destruct b; [|reflexivity].
  cbn [andb table_lookup code_table existsb]. rewrite !orb_false_r.
  reflexivity.
Qed.

Lemma lt_of_Z (a b : Z) : (Num.of_Z a <? Num.of_Z b)%num = (a <? b)%Z.
Proof.
  unfold Num.of_Z. cbn [Num.lt]. unfold Qle_bool. cbn [Qnum Qden inject_Z].
  rewrite !Z.mul_1_r. rewrite Z.ltb_antisym. reflexivity.
Qed.

Lemma filter_none {A : Type} (f : A -> bool) (l : list A) :
  (forall x, In x l -> f x = false) -> filter f l = [].
Proof.
  induction l as [|x l IH]; intros H; [reflexivity|]. simpl.
  rewrite (H x (or_introl eq_refl)). apply IH. intros y Hy. apply H. now right.
Qed.

Section Loop.

Variable DateValue : value -> num.
Variables (now end_ : num).
Variables (ts : list value) (temp_ pop_ wind_ code : value).

Hypothesis now_number : isNaN now = false.
Hypothesis end_number : isNaN end_ = false.
Hypothesis ordered : chronological DateValue ts.

Let date (i : nat) : num := DateValue (nth i ts VUndef).
Let window (i : nat) : list App.HourlyItem :=
  map (point_at ts temp_ pop_ wind_ code)
    (filter (fun j => in_window now end_ (date j)) (seq i (List.length ts - i))).

Lemma item_is_point (i : nat) :
  App.item_at (VArr ts) temp_ pop_ wind_ code i = point_at ts temp_ pop_ wind_ code i.
Proof.
  unfold App.item_at, point_at. now rewrite meteoCodeToTag_table.
Qed.

(** Past the first entry later than the end of the day nothing is in the
    window. *)
Lemma window_after_end (i : nat) :
  (i < List.length ts)%nat -> (date i >? end_)%num = true -> window i = [].
Proof.
  intros I G. unfold window. rewrite filter_none; [reflexivity|].
  intros j J. apply in_seq in J.
  assert (L : (date i <=? date j)%num = true) by (apply ordered; lia).
  unfold in_window. apply andb_false_iff. right.
  destruct (date j <=? end_)%num eqn:E; [|reflexivity].
  pose proof (le_trans _ _ _ L E) as LE.
  unfold Num.gt in G. rewrite lt_not_le in G by (apply (le_numbers _ _ LE)).
  rewrite LE in G. discriminate.
Qed.

(** The loop from index [i] on pushes the window from [i] on. *)
Lemma hourlyLoop_window (fuel : nat) :
  forall (i : nat) (items : list App.HourlyItem),
    (i <= List.length ts)%nat -> (List.length ts - i < fuel)%nat ->
    App.hourlyLoop DateValue now end_ (VArr ts) temp_ pop_ wind_ code fuel i items
    = Some (items ++ window i).
Proof.
  induction fuel as [|fuel IH]; intros i items I F; [lia|].
  cbn [App.hourlyLoop getProp key_string ToNumber].
  rewrite lt_of_Z.
  destruct (Z.ltb_spec (Z.of_nat i) (Z.of_nat (List.length ts))) as [L|L].
  - assert (Sq : seq i (List.length ts - i) = i :: seq (S i) (List.length ts - S i)).
    { replace (List.length ts - i)%nat with (S (List.length ts - S i)) by lia.
      reflexivity. }
    assert (T : isNaN (date i) = false).
    { apply (le_numbers (date i) (date i)). apply ordered. lia. }
    fold (date i).
    destruct (date i <? now)%num eqn:B.
    + rewrite IH by lia. do 2 f_equal. unfold window. rewrite Sq. cbn [filter].
      assert (W : in_window now end_ (date i) = false).
      { unfold in_window. rewrite lt_not_le in B by assumption.
        apply negb_true_iff in B. now rewrite B. }
      now rewrite W.
    + rewrite lt_not_le in B by assumption. apply negb_false_iff in B.
      destruct (date i >? end_)%num eqn:G.
      * rewrite window_after_end by (assumption || lia). now rewrite app_nil_r.
      * rewrite IH by lia. rewrite <- app_assoc. do 2 f_equal.
        unfold window. rewrite Sq. cbn [filter].
        assert (W : in_window now end_ (date i) = true).
        { unfold in_window. unfold Num.gt in G.
          rewrite lt_not_le in G by assumption.
          apply negb_false_iff in G. now rewrite B, G. }
        rewrite W. cbn [map app]. now rewrite item_is_point.
  - assert (i = List.length ts) by lia. subst i.
    unfold window. rewrite Nat.sub_diag. cbn. now rewrite app_nil_r.
Qed.

(** The scan stops at an entry later than the end of the day, whatever
    follows it. *)
Lemma hourlyLoop_stops (fuel i : nat) (items : list App.HourlyItem) :
  (i < List.length ts)%nat ->
  (date i <? now)%num = false -> (date i >? end_)%num = true ->
  App.hourlyLoop DateValue now end_ (VArr ts) temp_ pop_ wind_ code (S fuel) i items
  = Some items.
Proof.
  intros I B G. cbn [App.hourlyLoop getProp key_string ToNumber].
  rewrite lt_of_Z. destruct (Z.ltb_spec (Z.of_nat i) (Z.of_nat (List.length ts))); [|lia].
  fold (date i). now rewrite B, G.
Qed.

End Loop.

(** The end the function computes is the last millisecond of the local day
    of the clock, at the offset in force then. *)
Lemma endOfDay_is_last_millisecond (LocalTZA : Z -> bool -> Z) (clock : Z) :
  end_of_local_day LocalTZA clock (App.endOfDay LocalTZA clock).
Proof.
  unfold end_of_local_day, App.endOfDay, App.UTC, App.MakeDate, App.MakeTime,
    App.Day, App.LocalTime, App.msPerDay.
  set (d := ((clock + LocalTZA clock true) / 86400000)%Z).
  exists (d * 86400000 + (23 * 3600000 + 59 * 60000 + 59 * 1000 + 999))%Z.
  replace (d * 86400000 + (23 * 3600000 + 59 * 60000 + 59 * 1000 + 999))%Z
    with (86399999 + d * 86400000)%Z by lia.
  rewrite Z.div_add, Z.mod_add by lia.
  change (86399999 / 86400000)%Z with 0%Z.
  change (86399999 mod 86400000)%Z with 86399999%Z.
  repeat split; lia.
Qed.

(** C7: for a forecast whose hourly timestamps are in chronological order,
    the hourly window the function builds is exactly the entries whose
    timestamp lies between now and the last millisecond (23:59:59.999) of
    the current local day, both included, in the order of the series, each
    with the tag of the weather-code table; entries before now are skipped,
    nothing after the first entry past the end of the day is taken, and the
    loop needs no more steps than the series is long.  The end of the day is
    taken at the offset of local time in force at that moment, so the day
    of a clock change is covered. *)
Theorem hourly_window_extracted
    (DateValue : value -> num) (LocalTZA : Z -> bool -> Z) (clock clock' : Z)
    (fx : value) (ts : list value) (fuel : nat) :
  or_else (fx ?. "hourly" ?. "time") (VArr []) = VArr ts ->
  chronological DateValue ts ->
  (List.length ts < fuel)%nat ->
  App.renderHourlyUntilEndOfDay DateValue LocalTZA fuel clock clock' fx
  = Some (hourly_window DateValue
            (Num.of_Z clock) (Num.of_Z (App.endOfDay LocalTZA clock')) ts
            (or_else (fx ?. "hourly" ?. "temperature_2m") (VArr []))
            (or_else (fx ?. "hourly" ?. "precipitation_probability") (VArr []))
            (or_else (fx ?. "hourly" ?. "wind_speed_10m") (VArr []))
            (or_else (fx ?. "hourly" ?. "weather_code") (VArr [])))
  /\ end_of_local_day LocalTZA clock' (App.endOfDay LocalTZA clock')
  /\ (forall code : value, App.meteoCodeToTag code = tag_of code).
Proof.
  intros T C F. split; [|split];
    [|apply endOfDay_is_last_millisecond | apply meteoCodeToTag_table].
  unfold App.renderHourlyUntilEndOfDay. rewrite T.
  rewrite hourlyLoop_window; try reflexivity; try assumption; try lia.
  unfold hourly_window. now rewrite Nat.sub_0_r.
Qed.

Lemma hourly_window_extracted_witness :
  App.endOfDay berlin_autumn_2026 berlin_half_past_midnight = 1792969199999%Z
  /\ App.renderHourlyUntilEndOfDay epoch_millis berlin_autumn_2026 5
       berlin_half_past_midnight berlin_half_past_midnight berlin_forecast
     = Some [ {| App.time := VNum 1792958400000; App.temp := VNum 5;
                 App.pop := VUndef; App.wind := VUndef; App.tag := "Regen" |};
              {| App.time := VNum 1792965600000; App.temp := VNum 6;
                 App.pop := VUndef; App.wind := VUndef; App.tag := "Gewitter" |} ].
Proof.
  split; [reflexivity|].
  refine (eq_trans
            (proj1 (hourly_window_extracted epoch_millis berlin_autumn_2026
                      berlin_half_past_midnight berlin_half_past_midnight
                      berlin_forecast
                      [VNum 1792879200000; VNum 1792958400000;
                       VNum 1792965600000; VNum 1792969200000] 5
                      eq_refl _ _)) _).
  - intros i j H.
    destruct i as [|[|[|[|i]]]], j as [|[|[|[|j]]]]; simpl in H; try lia; reflexivity.
  - simpl. lia.
  - reflexivity.
Defined.

End ForecastWindow.

(** * More about the context builder *)

Section ContextBuilderMore.

Import Logic Spec Vary Icons.

(** Whatever the normalizer returns is one of the six categories. *)
Lemma normalizeCondition_category (v : value) (c : string) :
  normalizeCondition v = Return c -> In c categories.
Proof.
  unfold normalizeCondition, categories.
  destruct (or_else v (VStr "")); try discriminate.
  repeat match goal with |- context [if ?b then _ else _] => destruct b end;
    intros H; inversion H; simpl; tauto.
Qed.

Lemma buildWeatherContext_returns (api : value) (ctx : WeatherContext) :
  buildWeatherContext api = Return ctx ->
  normalizeCondition (payload_label api) = Return (condition ctx)
  /\ rawConditionMain ctx = or_else (payload_label api) (VStr "Unknown")
  /\ description ctx = or_else (api ?. "weather" ?. 0%nat ?. "description") (VStr "")
  /\ temp ctx = api ?. "main" ?. "temp"
  /\ feelsLike ctx = api ?. "main" ?. "feels_like"
  /\ windSpeed ctx = api ?. "wind" ?. "speed"
  /\ cloudPct ctx = api ?. "clouds" ?. "all" ?? VNull
  /\ visibilityM ctx = api ?. "visibility" ?? VNull
  /\ rainMm1h ctx = api ?. "rain" ?. "1h" ?? VNull
  /\ snowMm1h ctx = api ?. "snow" ?. "1h" ?? VNull.
Proof.
  unfold buildWeatherContext. fold (payload_label api).
  destruct (normalizeCondition (payload_label api)) as [c|e]; cbn [bind];
    [|discriminate].
  intros H. inversion H. cbn. tauto.
Qed.

(** X1: the condition of every context the builder returns is one of the six
    categories clear, clouds, rain, snow, thunderstorm and other. *)
Theorem buildWeatherContext_condition_category (api : value) (ctx : WeatherContext) :
  buildWeatherContext api = Return ctx -> In (condition ctx) categories.
Proof.
  intros H. apply buildWeatherContext_returns in H.
  destruct H as (N & _). exact (normalizeCondition_category _ _ N).
Qed.

Lemma buildWeatherContext_condition_category_witness :
  In (condition default_context) categories.
Proof.
  apply (buildWeatherContext_condition_category (VObj []) default_context).
  reflexivity.
Defined.

Lemma coalesce_null_defined (v : value) : v ?? VNull <> VUndef.
Proof. destruct v; discriminate. Qed.

Lemma or_else_truthy (v d : value) : truthy d = true -> truthy (or_else v d) = true.
Proof. unfold or_else. destruct (truthy v) eqn:T; auto. Qed.

(** X2: in every context the builder returns, cloud percentage,
    visibility, rain and snow depth are never [undefined] (an absent one is
    [null], any other is the value of the payload), the raw condition label
    is truthy, and the description is a truthy value or the empty text. *)
Theorem buildWeatherContext_optional_fields (api : value) (ctx : WeatherContext) :
  buildWeatherContext api = Return ctx ->
  (cloudPct ctx <> VUndef /\ visibilityM ctx <> VUndef
   /\ rainMm1h ctx <> VUndef /\ snowMm1h ctx <> VUndef)
  /\ (nullish (api ?. "clouds" ?. "all") = false -> cloudPct ctx = api ?. "clouds" ?. "all")
  /\ (nullish (api ?. "visibility") = false -> visibilityM ctx = api ?. "visibility")
  /\ (nullish (api ?. "rain" ?. "1h") = false -> rainMm1h ctx = api ?. "rain" ?. "1h")
  /\ (nullish (api ?. "snow" ?. "1h") = false -> snowMm1h ctx = api ?. "snow" ?. "1h")
  /\ truthy (rawConditionMain ctx) = true
  /\ (truthy (description ctx) = true \/ description ctx = VStr "").
Proof.
  intros H. apply buildWeatherContext_returns in H.
  destruct H as (_ & Raw & D & _ & _ & _ & C & V & R & S).
  rewrite Raw, D, C, V, R, S.
  split; [repeat split; apply coalesce_null_defined|].
  unfold coalesce.
  refine (conj _ (conj _ (conj _ (conj _ (conj _ _))))).
  - now intros ->.
  - now intros ->.
  - now intros ->.
  - now intros ->.
  - now apply or_else_truthy.
  - unfold or_else.
    destruct (truthy (api ?. "weather" ?. 0%nat ?. "description")) eqn:T; auto.
Qed.

Lemma buildWeatherContext_optional_fields_witness :
  rainMm1h default_context <> VUndef /\ truthy (rawConditionMain default_context) = true.
Proof.
  destruct (buildWeatherContext_optional_fields (VObj []) default_context eq_refl)
    as ((_ & _ & R & _) & _ & _ & _ & _ & T & _).
  exact (conj R T).
Defined.

(** A payload with none of the fields gives the default context. *)
Lemma buildWeatherContext_missing (api : value) :
  missing_every_field api -> buildWeatherContext api = Return default_context.
Proof.
  intros (W & M & Wi & C & V & Ra & S).
  unfold buildWeatherContext. rewrite W, M, Wi, C, V, Ra, S. reflexivity.
Qed.

(** X3: a payload with none of the fields the builder reads (an error body,
    an empty object, [null]) goes through the whole pipeline without an
    exception and gives the neutral outputs: the fallback recommendation, an
    impact score of 0, no badge, and the icon of the category other. *)
Theorem missing_payload_is_neutral (api : value) :
  missing_every_field api ->
  exists ctx,
    buildWeatherContext api = Return ctx
    /\ condition ctx = "other"
    /\ getRecommendation ctx = branch_fallback
    /\ getImpactScore ctx = 0%num
    /\ getBadges ctx = []
    /\ getWeatherIcon (condition ctx) = Own "🌫️".
Proof.
  intros H. exists default_context.
  split; [now apply buildWeatherContext_missing|].
  repeat split.
Qed.

Lemma missing_payload_is_neutral_witness :
  exists ctx,
    buildWeatherContext (VObj [("cod", VNum 401); ("message", VStr "Invalid API key")])
    = Return ctx
    /\ getImpactScore ctx = 0%num.
Proof.
  destruct (missing_payload_is_neutral
              (VObj [("cod", VNum 401); ("message", VStr "Invalid API key")]))
    as (ctx & B & _ & _ & I & _).
  - unfold missing_every_field. simpl. tauto.
  - exists ctx. exact (conj B I).
Defined.

(** X4: the icon shown for a context the builder returns is always one of
    the six icons of the table, the one of its condition; the spare icon and
    the members inherited from the prototype are never shown. *)
Theorem built_context_icon (api : value) (ctx : WeatherContext) :
  buildWeatherContext api = Return ctx ->
  exists icon,
    In (condition ctx, icon) icons
    /\ getWeatherIcon (condition ctx) = Own icon
    /\ icon <> "🌤️".
Proof.
  intros H. apply buildWeatherContext_returns in H. destruct H as (H & _).
  apply normalizeCondition_category in H. unfold categories in H. simpl in H.
  destruct H as [H|[H|[H|[H|[H|[H|[]]]]]]];
    (rewrite <- H; eexists; (split; [|split]); [ | reflexivity | ];
     [simpl; tauto | vm_compute; discriminate]).
Qed.

Lemma built_context_icon_witness :
  exists icon, getWeatherIcon (condition default_context) = Own icon /\ icon <> "🌤️".
Proof.
  destruct (built_context_icon (VObj []) default_context eq_refl) as (icon & _ & G & N).
  exists icon. exact (conj G N).
Defined.

End ContextBuilderMore.

(** * More about the recommendation engine and the insight selector *)

Section RecommendationMore.

Import Logic Spec Vary.

Ltac other_branch :=
  let H := fresh in
  intros H; apply (f_equal summary) in H; vm_compute in H; discriminate H.

(** The result is always one of the fourteen branches. *)
Lemma getRecommendation_branch (ctx : WeatherContext) :
  In (getRecommendation ctx) branches.
Proof.
  unfold getRecommendation, branches.
  repeat match goal with |- context [if ?b then _ else _] => destruct b end;
    simpl; tauto.
Qed.

Ltac table_case :=
  repeat match goal with
  | |- _ /\ _ => split
  | |- _ <-> _ => split
  end;
  try (intros _; repeat split; solve [reflexivity | assumption | discriminate]);
  try solve [other_branch];
  try (intros; exfalso;
       repeat match goal with H : _ /\ _ |- _ => destruct H end;
       solve [congruence | discriminate]).

(** X5: the decision table can be read backwards: each of the fourteen
    branches is returned exactly under the condition of its rule, with the
    wind rule (10 m/s or more) placed after thunderstorm, snow and rain and
    before clear and clouds.  In particular the fallback branch is returned
    exactly when the condition is none of the five named ones and the wind
    is below 10 m/s or unknown. *)
Theorem getRecommendation_table (ctx : WeatherContext) :
  let c := condition ctx in
  let t := ToNumber (temp ctx) in
  let w := ToNumber (windSpeed ctx) in
  let dry := c <> "thunderstorm" /\ c <> "snow" /\ c <> "rain" in
  (getRecommendation ctx = branch_thunderstorm <-> c = "thunderstorm")
  /\ (getRecommendation ctx = branch_snow_winter_gear
      <-> c = "snow" /\ (t <=? 0)%num = true)
  /\ (getRecommendation ctx = branch_snow_sleet
      <-> c = "snow" /\ (t <=? 0)%num = false)
  /\ (getRecommendation ctx = branch_rain_cold
      <-> c = "rain" /\ (t <=? 6)%num = true)
  /\ (getRecommendation ctx = branch_rain_warm
      <-> c = "rain" /\ (t <=? 6)%num = false /\ (t >=? 22)%num = true)
  /\ (getRecommendation ctx = branch_rain_standard
      <-> c = "rain" /\ (t <=? 6)%num = false /\ (t >=? 22)%num = false)
  /\ (getRecommendation ctx = branch_windy_cold
      <-> dry /\ (w >=? 10)%num = true /\ (t <=? 10)%num = true)
  /\ (getRecommendation ctx = branch_windy
      <-> dry /\ (w >=? 10)%num = true /\ (t <=? 10)%num = false)
  /\ (getRecommendation ctx = branch_clear_heat
      <-> c = "clear" /\ (w >=? 10)%num = false /\ (t >=? 28)%num = true)
  /\ (getRecommendation ctx = branch_clear_cold
      <-> c = "clear" /\ (w >=? 10)%num = false
          /\ (t >=? 28)%num = false /\ (t <=? 5)%num = true)
  /\ (getRecommendation ctx = branch_clear_pleasant
      <-> c = "clear" /\ (w >=? 10)%num = false
          /\ (t >=? 28)%num = false /\ (t <=? 5)%num = false)
  /\ (getRecommendation ctx = branch_clouds_cool
      <-> c = "clouds" /\ (w >=? 10)%num = false /\ (t <=? 8)%num = true)
  /\ (getRecommendation ctx = branch_clouds_mild
      <-> c = "clouds" /\ (w >=? 10)%num = false /\ (t <=? 8)%num = false)
  /\ (getRecommendation ctx = branch_fallback
      <-> dry /\ c <> "clear" /\ c <> "clouds" /\ (w >=? 10)%num = false).
Proof.
  intros c t w dry. unfold dry, getRecommendation. fold c t w.
  destruct (String.eqb_spec c "thunderstorm") as [C1|C1];
    [rewrite C1; table_case|].
  destruct (String.eqb_spec c "snow") as [C2|C2].
  { rewrite C2. destruct (t <=? 0)%num eqn:T0; table_case. }
  destruct (String.eqb_spec c "rain") as [C3|C3].
  { rewrite C3. destruct (t <=? 6)%num eqn:T6;
      [|destruct (t >=? 22)%num eqn:T22]; table_case. }
  destruct (w >=? 10)%num eqn:W.
  { destruct (t <=? 10)%num eqn:T10; table_case. }
  destruct (String.eqb_spec c "clear") as [C4|C4].
  { rewrite C4. destruct (t >=? 28)%num eqn:T28;
      [|destruct (t <=? 5)%num eqn:T5]; table_case. }
  destruct (String.eqb_spec c "clouds") as [C5|C5].
  { rewrite C5. destruct (t <=? 8)%num eqn:T8; table_case. }
  table_case.
Qed.

Lemma getRecommendation_table_witness :
  getRecommendation (context_of "other" (VNum 15) (VNum 2)) = branch_fallback
  /\ getRecommendation (context_of "clear" (VNum 35) (VNum 12)) <> branch_clear_heat.
Proof.
  pose proof (getRecommendation_table (context_of "other" (VNum 15) (VNum 2))) as T.
  pose proof (getRecommendation_table (context_of "clear" (VNum 35) (VNum 12))) as U.
  cbv zeta in T, U.
  destruct T as (_ & _ & _ & _ & _ & _ & _ & _ & _ & _ & _ & _ & _ & T).
  destruct U as (_ & _ & _ & _ & _ & _ & _ & _ & U & _).
  split.
  - apply T. repeat split; discriminate.
  - intros H. apply U in H. destruct H as (_ & W & _). discriminate W.
Defined.

(** Every branch has a pool of three phrases, none of them empty. *)
Lemma insightPool_three (ctx : WeatherContext) :
  List.length (insightPool (getRecommendation ctx)) = 3%nat
  /\ Forall (fun s => s <> "") (insightPool (getRecommendation ctx)).
Proof.
  pose proof (getRecommendation_branch ctx) as B. unfold branches in B. simpl in B.
  repeat (destruct B as [B|B]; [rewrite <- B; split; [reflexivity|];
                                repeat constructor; discriminate|]).
  contradiction.
Qed.

(** X6: the insight shown with a recommendation is always one of the three
    phrases of its branch and never empty, whatever the context and whatever
    the random number in [0, 1). *)
Theorem recommendation_insight (ctx : WeatherContext) (random : Q) :
  0 <= random < 1 ->
  exists s,
    pickDailyInsight random (VArr (map VStr (insightPool (getRecommendation ctx))))
    = VStr s
    /\ In s (insightPool (getRecommendation ctx))
    /\ s <> "".
Proof.
  intros R. destruct (insightPool_three ctx) as [L F].
  set (pool := insightPool (getRecommendation ctx)) in *.
  unfold pickDailyInsight. rewrite length_map, L. cbn [Nat.eqb].
  cbn [Num.mul Num.floor Num.of_Z].
  pose proof (random_index_in_range random 3 R ltac:(lia)) as B.
  change (Z.of_nat 3) with 3%Z in *.
  fold (Num.of_Z (Qfloor (random * inject_Z 3))).
  rewrite elem_at_index by (rewrite length_map, L; exact B).
  set (i := Z.to_nat (Qfloor (random * inject_Z 3))).
  assert (I : (i < List.length pool)%nat) by (rewrite L; unfold i; lia).
  exists (nth i pool "").
  rewrite (nth_indep _ VUndef (VStr "")) by (rewrite length_map; exact I).
  rewrite (map_nth VStr). split; [reflexivity|].
  split; [now apply nth_In|].
  rewrite Forall_forall in F. apply F. now apply nth_In.
Qed.

Lemma recommendation_insight_witness :
  exists s,
    pickDailyInsight (1 # 2)
      (VArr (map VStr (insightPool (getRecommendation default_context))))
    = VStr s
    /\ s <> "".
Proof.
  destruct (recommendation_insight default_context (1 # 2)) as (s & P & _ & N).
  - split; [apply Qle_bool_iff | apply Qlt_alt]; reflexivity.
  - exists s. exact (conj P N).
Defined.



End RecommendationMore.

(** * More about the impact score *)

Section ImpactScoreMore.

Import Logic Spec Vary.















End ImpactScoreMore.

(** * Visibility, the badges, and how badges and score fit together *)

Section BadgesMore.

Import Logic Spec Vary.

Lemma le_lt_trans (a b c : num) :
  (a <=? b)%num = true -> (b <? c)%num = true -> (a <? c)%num = true.
Proof.
  destruct a, b, c; simpl; intros H1 H2; try reflexivity; try congruence.
  apply negb_true_iff in H2. apply Qle_bool_false in H2. apply Qle_bool_iff in H1.
  apply negb_true_iff, Qle_bool_false. lra.
Qed.




Lemma has_badge_keep (b x : Badge) (g : bool) (l : list Badge) :
  has_badge b l = true -> has_badge b (if g then l ++ [x] else l) = true.
Proof.
  unfold has_badge. intros H. destruct g; [|exact H].
  rewrite existsb_app, H. reflexivity.
Qed.

Lemma has_badge_last (b : Badge) (l : list Badge) :
  badge_eqb b b = true -> has_badge b (l ++ [b]) = true.
Proof.
  unfold has_badge. intros H. rewrite existsb_app. cbn [existsb].
  rewrite H. now rewrite orb_true_r.
Qed.

(** X12: a visibility of 0 or less shows the poor-visibility badge, but adds
    nothing to the impact score: the score is the one of a context without
    visibility. *)
Theorem nonpositive_visibility (ctx : WeatherContext) (v : num) :
  (v <=? 0)%num = true ->
  has_badge badge_poor_visibility (getBadges (with_visibility ctx (VNum v))) = true
  /\ getImpactScore (with_visibility ctx (VNum v))
     = getImpactScore (with_visibility ctx VNull).
Proof.
  intros L. split.
  - assert (G : (v <? 1000)%num = true).
    { apply (le_lt_trans _ _ _ L). reflexivity. }
    unfold getBadges. cbv zeta.
    cbn [with_visibility visibilityM is_number ToNumber andb].
    rewrite G. repeat apply has_badge_keep.
    apply (has_badge_last badge_poor_visibility). reflexivity.
  - rewrite !getImpactScore_total. unfold total, visibility_contribution.
    cbn [reading with_visibility visibility visibilityM].
    assert (G : (v >? 0)%num = false).
    { unfold Num.gt. rewrite lt_not_le; [now rewrite L|reflexivity|].
      apply (le_numbers _ _ L). }
    rewrite G. reflexivity.
Qed.

Lemma nonpositive_visibility_witness :
  has_badge badge_poor_visibility (getBadges (with_visibility default_context (VNum 0)))
  = true
  /\ getImpactScore (with_visibility default_context (VNum 0)) = 0%num.
Proof.
  destruct (nonpositive_visibility default_context 0%num eq_refl) as [B S].
  split; [exact B|]. rewrite S. reflexivity.
Defined.

Lemma has_badge_push (b x : Badge) (g : bool) (l : list Badge) :
  has_badge b (if g then l ++ [x] else l) = has_badge b l || (g && badge_eqb b x).
Proof.
  unfold has_badge. destruct g; cbn [andb].
  - rewrite existsb_app. cbn [existsb]. now rewrite orb_false_r.
  - now rewrite orb_false_r.
Qed.

Lemma has_badge_push2 (b x y : Badge) (g h : bool) (l : list Badge) :
  has_badge b (if g then l ++ [x] else if h then l ++ [y] else l)
  = has_badge b l || (g && badge_eqb b x) || (negb g && h && badge_eqb b y).
Proof.
  destruct g; cbn [negb andb].
  - rewrite (has_badge_push b x true l). cbn [andb]. now rewrite orb_false_r.
  - rewrite (has_badge_push b y h l). now rewrite orb_false_r.
Qed.

(** Which rules put a given badge into the result. *)
Lemma getBadges_has (ctx : WeatherContext) (b : Badge) :
  let t := ToNumber (temp ctx) in
  let w := ToNumber (windSpeed ctx) in
  let rain := ToNumber (rainMm1h ctx ?? VNum 0) in
  let snow := ToNumber (snowMm1h ctx ?? VNum 0) in
  let vis := visibilityM ctx in
  has_badge b (getBadges ctx)
  = false
    || ((rain >=? 2)%num && badge_eqb b badge_heavy_rain)
    || (negb (rain >=? 2)%num && (rain >? 0)%num && badge_eqb b badge_wet)
    || ((snow >? 0)%num && (t <=? 1)%num && badge_eqb b badge_ice_risk)
    || (negb ((snow >? 0)%num && (t <=? 1)%num) && (snow >? 0)%num
        && badge_eqb b badge_snow)
    || (is_number vis && (ToNumber vis <? 1000)%num && badge_eqb b badge_poor_visibility)
    || (negb (isNaN w) && (w >=? 10)%num && badge_eqb b badge_very_windy)
    || (negb (isNaN t) && (t >=? 30)%num && badge_eqb b badge_heat)
    || (negb (isNaN t) && (t <=? 0)%num && badge_eqb b badge_frost)
    || (is_number (cloudPct ctx) && (ToNumber (cloudPct ctx) >=? 85)%num
        && badge_eqb b badge_very_cloudy).
Proof.
  intros t w rain snow vis. unfold getBadges. cbv zeta. fold t w rain snow vis.
  rewrite !has_badge_push, !has_badge_push2. reflexivity.
Qed.

Ltac badge_tests :=
  repeat match goal with
  | |- context [badge_eqb ?a ?b] =>
      let v := eval vm_compute in (badge_eqb a b) in
      change (badge_eqb a b) with v
  end;
  rewrite ?andb_false_r, ?orb_false_r, ?andb_true_r; cbn [orb].

(** X13: each of the nine badges is in the result exactly when its rule
    holds: heavy rain from 2 mm, wet for rain below 2 mm, ice risk for snow
    at 1 degree or less, snow for snow above 1 degree or at an unknown
    temperature, poor visibility below 1000 m, very windy from 10 m/s, heat
    from 30 degrees, frost from 0 degrees down, very cloudy from 85
    percent. *)
Theorem getBadges_presence (ctx : WeatherContext) :
  let t := ToNumber (temp ctx) in
  let w := ToNumber (windSpeed ctx) in
  let rain := ToNumber (rainMm1h ctx ?? VNum 0) in
  let snow := ToNumber (snowMm1h ctx ?? VNum 0) in
  let vis := visibilityM ctx in
  let has b := has_badge b (getBadges ctx) in
  has badge_heavy_rain = (rain >=? 2)%num
  /\ has badge_wet = negb (rain >=? 2)%num && (rain >? 0)%num
  /\ has badge_ice_risk = (snow >? 0)%num && (t <=? 1)%num
  /\ has badge_snow = (snow >? 0)%num && negb (t <=? 1)%num
  /\ has badge_poor_visibility = is_number vis && (ToNumber vis <? 1000)%num
  /\ has badge_very_windy = negb (isNaN w) && (w >=? 10)%num
  /\ has badge_heat = negb (isNaN t) && (t >=? 30)%num
  /\ has badge_frost = negb (isNaN t) && (t <=? 0)%num
  /\ has badge_very_cloudy
     = is_number (cloudPct ctx) && (ToNumber (cloudPct ctx) >=? 85)%num.
Proof.
  intros t w rain snow vis has. unfold has.
  rewrite !getBadges_has. fold t w rain snow vis.
  refine (conj _ (conj _ (conj _ (conj _ (conj _ (conj _ (conj _ (conj _ _))))))));
    badge_tests; try reflexivity.
  destruct (snow >? 0)%num, (t <=? 1)%num; reflexivity.
Qed.

Lemma heat_excludes_frost (t : num) :
  negb (isNaN t) && (t >=? 30)%num = true ->
  negb (isNaN t) && (t <=? 0)%num = true -> False.
Proof.
  destruct t; simpl; try discriminate. intros H1 H2.
  apply Qle_bool_iff in H1, H2. lra.
Qed.

Lemma getBadges_checked (ctx : WeatherContext) : badges_check (getBadges ctx) = true.
Proof.
  unfold getBadges. cbv zeta.
  destruct (negb (isNaN (ToNumber (temp ctx))) && (ToNumber (temp ctx) >=? 30)%num)
    eqn:H;
  destruct (negb (isNaN (ToNumber (temp ctx))) && (ToNumber (temp ctx) <=? 0)%num)
    eqn:F;
  try (exfalso; exact (heat_excludes_frost _ H F));
  clear H F;
  repeat match goal with
  | |- context [if ?b then _ else _] => destruct b
  end;
  vm_compute; reflexivity.
Qed.

(** X14: the badges come in the fixed order of the rules, each at most
    once, and never more than six of them: heavy rain and wet exclude each
    other, so do ice risk and snow, and so do heat and frost. *)
Theorem getBadges_order (ctx : WeatherContext) :
  subsequence (getBadges ctx) badge_order = true
  /\ (List.length (getBadges ctx) <= 6)%nat
  /\ has_badge badge_heavy_rain (getBadges ctx)
     && has_badge badge_wet (getBadges ctx) = false
  /\ has_badge badge_ice_risk (getBadges ctx)
     && has_badge badge_snow (getBadges ctx) = false
  /\ has_badge badge_heat (getBadges ctx)
     && has_badge badge_frost (getBadges ctx) = false.
Proof.
  pose proof (getBadges_checked ctx) as C. unfold badges_check in C.
  repeat (apply andb_true_iff in C; destruct C as [C ?]).
  repeat match goal with H : negb _ = true |- _ => apply negb_true_iff in H end.
  apply Nat.leb_le in H2. tauto.
Qed.





(** X16: between two finite bounds [lo <= hi] the clamp of a number lies
    within the bounds, is the number itself when that is within them, and
    does not decrease when the number grows; the clamp of not-a-number is
    not-a-number. *)
Theorem clamp_between (n : num) (lo hi : Q) :
  lo <= hi ->
  clamp NaN (Fin lo) (Fin hi) = NaN
  /\ (isNaN n = false ->
      exists q, clamp n (Fin lo) (Fin hi) = Fin q /\ lo <= q <= hi)
  /\ ((Fin lo <=? n)%num && (n <=? Fin hi)%num = true ->
      Num.eqb (clamp n (Fin lo) (Fin hi)) n = true)
  /\ (forall m : num, (n <=? m)%num = true ->
        (clamp n (Fin lo) (Fin hi) <=? clamp m (Fin lo) (Fin hi))%num = true).
Proof.
  intros B. split; [reflexivity|]. split; [intros N; now apply clamp_Fin|]. split.
  - intros I. apply andb_true_iff in I. destruct I as [L H].
    destruct n as [| |q|]; try discriminate.
    apply Qle_bool_iff in L, H. unfold clamp, Num.max, Num.min. cbn [Num.lt].
    destruct (Qle_bool hi q) eqn:E1; cbn [negb Num.lt Num.eqb].
    + apply Qle_bool_iff in E1.
      destruct (Qle_bool hi lo) eqn:E2; cbn [negb Num.eqb];
        [apply Qle_bool_iff in E2|]; apply Qeq_bool_iff; lra.
    + destruct (Qle_bool q lo) eqn:E2; cbn [negb Num.eqb];
        [apply Qle_bool_iff in E2|]; apply Qeq_bool_iff; lra.
  - intros m L. destruct (le_numbers _ _ L) as [N1 N2].
    pose proof (clamp_mono n m lo hi L B) as M.
    destruct (clamp_Fin n lo hi N1 B) as (q1 & E1 & _).
    destruct (clamp_Fin m lo hi N2 B) as (q2 & E2 & _).
    rewrite E1, E2 in *. apply le_Fin. exact M.
Qed.

Lemma clamp_between_witness :
  Num.eqb (clamp 20 5 30) 20 = true /\ (clamp 20 5 30 <=? clamp 44 5 30)%num = true.
Proof.
  destruct (clamp_between 20%num 5 30) as (_ & _ & I & M).
  - apply Qle_bool_iff. reflexivity.
  - split; [apply I; reflexivity | apply M; reflexivity].
Defined.

End BadgesMore.

(** * The daily forecast and the hourly scan in general *)

Section ForecastMore.

Import Spec Render Scan.

Lemma map_indexed_length {A B : Type} (f : A -> nat -> B) (l : list A) (k : nat) :
  List.length (map_indexed f k l) = List.length l.
Proof.
  revert k. induction l as [|x l IH]; intros k; simpl; [reflexivity|].
  now rewrite IH.
Qed.

Lemma map_indexed_nth_error {A B : Type} (f : A -> nat -> B) (l : list A) (k i : nat) :
  nth_error (map_indexed f k l) i
  = match nth_error l i with
    | Some x => Some (f x (k + i)%nat)
    | None => None
    end.
Proof.
  revert k i. induction l as [|x l IH]; intros k [|i]; simpl; try reflexivity.
  - now rewrite Nat.add_0_r.
  - rewrite IH. now rewrite Nat.add_succ_comm.
Qed.

(** X17: the seven-day forecast has one card per day of the series in
    series order, seven at most and fewer when the series is shorter
    (an absent series gives none); the card of day [i] carries the tag of the
    weather code at [i], and a day whose metrics are absent still has its
    card, with not-a-number temperatures and 0 for precipitation. *)
Theorem renderDaily7_window (fx : value) (days : list value) :
  or_else (fx ?. "daily" ?. "time") (VArr []) = VArr days ->
  exists cards,
    renderDaily7 fx = Return cards
    /\ List.length cards = Nat.min 7 (List.length days)
    /\ (forall i d, (i < 7)%nat -> nth_error days i = Some d ->
          exists card,
            nth_error cards i = Some card
            /\ day card = d
            /\ dayTag card
               = tag_of (getProp (or_else (fx ?. "daily" ?. "weather_code") (VArr [])) i)
            /\ (fx ?. "daily" ?. "temperature_2m_min" = VUndef -> tempMin card = NaN)
            /\ (fx ?. "daily" ?. "precipitation_sum" = VUndef -> precipSum card = VNum 0)).
Proof.
  intros T. unfold renderDaily7. rewrite T. eexists. split; [reflexivity|]. split.
  - rewrite map_indexed_length. apply length_firstn.
  - intros i d I D. rewrite map_indexed_nth_error.
    assert (F : nth_error (firstn 7 days) i = Some d).
    { rewrite nth_error_firstn. destruct (Nat.ltb_spec i 7); [exact D | lia]. }
    rewrite F. eexists. split; [reflexivity|]. cbn [day dayTag tempMin precipSum].
    rewrite meteoCodeToTag_table. split; [reflexivity|]. split; [reflexivity|].
    split; intros ->; destruct i; reflexivity.
Qed.

Lemma renderDaily7_window_witness :
  exists cards,
    renderDaily7 (VObj [("daily", VObj [("time", VArr (repeat (VStr "2024-05-01") 9))])])
    = Return cards
    /\ List.length cards = 7%nat.
Proof.
  destruct (renderDaily7_window
              (VObj [("daily", VObj [("time", VArr (repeat (VStr "2024-05-01") 9))])])
              (repeat (VStr "2024-05-01") 9) eq_refl) as (cards & R & L & _).
  exists cards. exact (conj R L).
Defined.

(** X18: the seven-day forecast throws exactly when the daily series of
    days is a truthy value that is no array (a text, a number, an object);
    an absent, [null] or empty one gives no card and no exception. *)
Theorem renderDaily7_throws (fx : value) :
  renderDaily7 fx = Throw TypeError
  <-> truthy (fx ?. "daily" ?. "time") = true
      /\ forall days, fx ?. "daily" ?. "time" <> VArr days.
Proof.
  unfold renderDaily7, or_else.
  destruct (truthy (fx ?. "daily" ?. "time")) eqn:T.
  - destruct (fx ?. "daily" ?. "time") as [| | | | |days|];
      try (split; [intros _; split; [reflexivity|discriminate] | reflexivity]).
    split; [discriminate|]. intros [_ H]. now contradiction (H days).
  - split; [discriminate|]. intros [H _]. discriminate.
Qed.

Lemma renderDaily7_throws_witness :
  renderDaily7 (VObj [("daily", VObj [("time", VStr "2024-05-01")])]) = Throw TypeError.
Proof.
  apply (proj2 (renderDaily7_throws
                  (VObj [("daily", VObj [("time", VStr "2024-05-01")])]))).
  split; [reflexivity | discriminate].
Defined.

Section AnySeries.

Variable DateValue : value -> num.
Variables (now end_ : num).
Variables (ts : list value) (temp_ pop_ wind_ code : value).

Let date (i : nat) : num := DateValue (nth i ts VUndef).
Let item := App.item_at (VArr ts) temp_ pop_ wind_ code.

(** The loop from index [i] on, for a series in any order. *)
Lemma hourlyLoop_scan (fuel : nat) :
  forall (i : nat) (items : list App.HourlyItem),
    (i <= List.length ts)%nat -> (List.length ts - i < fuel)%nat ->
    App.hourlyLoop DateValue now end_ (VArr ts) temp_ pop_ wind_ code fuel i items
    = Some (items
            ++ map item
                 (filter (kept now end_ date)
                    (seq i (before_stop now end_ date i (List.length ts - i))))).
Proof.
  induction fuel as [|fuel IH]; intros i items I F; [lia|].
  cbn [App.hourlyLoop getProp key_string ToNumber].
  rewrite lt_of_Z.
  destruct (Z.ltb_spec (Z.of_nat i) (Z.of_nat (List.length ts))) as [L|L].
  - replace (List.length ts - i)%nat with (S (List.length ts - S i)) by lia.
    cbn [before_stop]. unfold stops at 1. fold (date i).
    destruct (date i <? now)%num eqn:B; cbn [negb andb].
    + assert (K : kept now end_ date i = false).
      { unfold kept. fold (date i). now rewrite B. }
      rewrite IH by lia. cbn [seq filter]. now rewrite K.
    + destruct (date i >? end_)%num eqn:G.
      * cbn [seq filter map]. now rewrite app_nil_r.
      * assert (K : kept now end_ date i = true).
        { unfold kept. fold (date i). now rewrite B, G. }
        rewrite IH by lia. cbn [seq filter]. rewrite K.
        cbn [map]. now rewrite <- app_assoc.
  - replace (List.length ts - i)%nat with 0%nat by lia.
    cbn. now rewrite app_nil_r.
Qed.

End AnySeries.

Lemma before_stop_le (now end_ : num) (date : nat -> num) (n : nat) :
  forall i, (before_stop now end_ date i n <= n)%nat.
Proof.
  induction n as [|n IH]; intros i; simpl; [lia|].
  destruct (stops now end_ date i); [lia|]. specialize (IH (S i)). lia.
Qed.

(** X19: for an hourly series in any order, and whatever its timestamps
    are, the function returns (fuel above the length of the series is
    enough) the entries that come before the first entry later than the end
    of the day and are not earlier than now, in series order; the end of the
    day is the last millisecond of the local day at the offset in force
    then.  An entry whose timestamp is no date is neither earlier nor later
    than anything, so it is among them whenever the scan reaches it. *)
Theorem hourly_scan_any_series
    (DateValue : value -> num) (LocalTZA : Z -> bool -> Z) (clock clock' : Z)
    (fx : value) (ts : list value) (fuel : nat) :
  or_else (fx ?. "hourly" ?. "time") (VArr []) = VArr ts ->
  (List.length ts < fuel)%nat ->
  let now := Num.of_Z clock in
  let end_ := Num.of_Z (App.endOfDay LocalTZA clock') in
  let date i := DateValue (nth i ts VUndef) in
  let item :=
    App.item_at (VArr ts)
      (or_else (fx ?. "hourly" ?. "temperature_2m") (VArr []))
      (or_else (fx ?. "hourly" ?. "precipitation_probability") (VArr []))
      (or_else (fx ?. "hourly" ?. "wind_speed_10m") (VArr []))
      (or_else (fx ?. "hourly" ?. "weather_code") (VArr [])) in
  let reached := before_stop now end_ date 0 (List.length ts) in
  App.renderHourlyUntilEndOfDay DateValue LocalTZA fuel clock clock' fx
  = Some (map item (filter (kept now end_ date) (seq 0 reached)))
  /\ (reached <= List.length ts)%nat
  /\ end_of_local_day LocalTZA clock' (App.endOfDay LocalTZA clock')
  /\ (forall i, (i < reached)%nat -> isNaN (date i) = true -> kept now end_ date i = true).
Proof.
  intros T F now end_ date item reached.
  split; [|split; [|split]].
  - unfold App.renderHourlyUntilEndOfDay. rewrite T.
    rewrite hourlyLoop_scan by lia. rewrite Nat.sub_0_r. reflexivity.
  - apply before_stop_le.
  - apply endOfDay_is_last_millisecond.
  - intros i _ N. unfold kept. destruct (date i); try discriminate. reflexivity.
Qed.

Lemma hourly_scan_any_series_witness :
  App.renderHourlyUntilEndOfDay epoch_millis berlin_autumn_2026 6
    berlin_half_past_midnight berlin_half_past_midnight
    (VObj [("hourly",
            VObj [("time",
                   VArr [VNum 1792965600000; VStr "soon"; VNum 1792958400000;
                         VNum 1792969200000; VNum 1792962000000])])])
  = Some [ {| App.time := VNum 1792965600000; App.temp := VUndef; App.pop := VUndef;
              App.wind := VUndef; App.tag := "Wechselhaft" |};
           {| App.time := VStr "soon"; App.temp := VUndef; App.pop := VUndef;
              App.wind := VUndef; App.tag := "Wechselhaft" |};
           {| App.time := VNum 1792958400000; App.temp := VUndef; App.pop := VUndef;
              App.wind := VUndef; App.tag := "Wechselhaft" |} ].
Proof.
  refine (eq_trans
            (proj1 (hourly_scan_any_series epoch_millis berlin_autumn_2026
                      berlin_half_past_midnight berlin_half_past_midnight
                      (VObj [("hourly",
                              VObj [("time",
                                     VArr [VNum 1792965600000; VStr "soon";
                                           VNum 1792958400000; VNum 1792969200000;
                                           VNum 1792962000000])])])
                      [VNum 1792965600000; VStr "soon"; VNum 1792958400000;
                       VNum 1792969200000; VNum 1792962000000] 6 eq_refl _)) _).
  - simpl. lia.
  - reflexivity.
Defined.

End ForecastMore.

(** * The forecast cache *)

Section CacheFacts.

Import Render Text Fixture.

Variable NumberToString : num -> string.
Variable network : value -> value -> option value.

Let ensure := ensureForecastLoaded NumberToString network.

(** X20: a forecast is fetched once: after a call that resolved and left a
    truthy forecast, the next call fetches nothing and leaves the state as
    it is. *)
Theorem forecast_fetched_once (st : AppState) :
  result (ensure st) = Resolved ->
  truthy (lastForecast (state (ensure st))) = true ->
  ensure (state (ensure st))
  = {| state := state (ensure st); fetched := []; result := Resolved |}.
Proof.
  unfold ensure, ensureForecastLoaded.
  destruct (lastLocation st) as [loc|] eqn:L; cbn [state result].
  2:{ intros _ _. now rewrite ?L. }
  destruct (toFixed4 NumberToString (lat loc)) as [a|e] eqn:A; cbn [state result];
    [|discriminate].
  destruct (toFixed4 NumberToString (lon loc)) as [b|e] eqn:B; cbn [state result];
    [|discriminate].
  destruct (truthy (lastForecast st) && key_equal (forecastLoadedFor st) (a ++ "," ++ b))
    eqn:H; cbn [state result].
  - intros _ _. now rewrite ?L, ?A, ?B, ?H.
  - destruct (network (lat loc) (lon loc)) as [fx|]; cbn [state result];
      [|discriminate].
    intros _ T. cbn [lastLocation lastForecast forecastLoadedFor] in T |- *.
    rewrite ?L, ?A, ?B, T. cbn [key_equal andb]. now rewrite String.eqb_refl.
Qed.

(** X21: a falsy forecast (the network answered [null], [false], 0 or an
    empty text) is stored but never counts as loaded: the next call fetches
    again. *)
Theorem falsy_forecast_fetched_again (st : AppState) (loc : Location) (a b : num)
    (fx : value) :
  lastLocation st = Some loc ->
  lat loc = VNum a -> lon loc = VNum b ->
  network (lat loc) (lon loc) = Some fx ->
  truthy (lastForecast st) = false -> truthy fx = false ->
  fetched (ensure st) = [(lat loc, lon loc)]
  /\ lastForecast (state (ensure st)) = fx
  /\ fetched (ensure (state (ensure st))) = [(lat loc, lon loc)].
Proof.
  intros L A B N T F.
  assert (E : forall s, lastLocation s = Some loc -> truthy (lastForecast s) = false ->
              ensure s
              = {| state := {| lastLocation := lastLocation s;
                               lastForecast := fx;
                               forecastLoadedFor :=
                                 Some (toFixed NumberToString 4 a ++ ","
                                       ++ toFixed NumberToString 4 b)%string;
                               forecastStatus := "Forecast bereit." |};
                   fetched := [(lat loc, lon loc)];
                   result := Resolved |}).
  { intros s Ls Ts. unfold ensure, ensureForecastLoaded.
    rewrite Ls, A, B. cbn [toFixed4]. rewrite Ts. cbn [andb].
    rewrite <- A, <- B, N. reflexivity. }
  rewrite (E st L T). cbn [state fetched lastForecast].
  split; [reflexivity|]. split; [reflexivity|].
  rewrite E; [reflexivity | exact L | exact F].
Qed.

(** The key under which the forecast of a location is remembered. *)
Let key (a b : num) : string :=
  (toFixed NumberToString 4 a ++ "," ++ toFixed NumberToString 4 b)%string.

(** X22: the cache is keyed by the coordinates printed with four decimals.
    After a forecast was loaded for one location, a move to a location with
    the same key fetches nothing and keeps that forecast; a move to a
    location with another key fetches the forecast of the new location. *)
Theorem forecast_keyed_by_four_decimals (st : AppState) (loc' : Location)
    (a b : num) (k : string) :
  truthy (lastForecast st) = true ->
  forecastLoadedFor st = Some k ->
  lat loc' = VNum a -> lon loc' = VNum b ->
  (k = key a b ->
   ensure (move_to st loc')
   = {| state := move_to st loc'; fetched := []; result := Resolved |})
  /\ (k <> key a b ->
      fetched (ensure (move_to st loc')) = [(lat loc', lon loc')]).
Proof.
  intros T K A B. unfold ensure, ensureForecastLoaded, move_to.
  cbn [lastLocation lastForecast forecastLoadedFor].
  rewrite A, B. cbn [toFixed4]. rewrite T, K. cbn [andb key_equal]. fold (key a b).
  split; intros H.
  - rewrite (proj2 (String.eqb_eq _ _) H). reflexivity.
  - rewrite (proj2 (String.eqb_neq _ _) H).
    destruct (network (VNum a) (VNum b)); reflexivity.
Qed.

End CacheFacts.

Section CacheWitnesses.

Import Render Text Fixture.

Lemma forecast_fetched_once_witness :
  fetched (ensureForecastLoaded print_integer (steady_network (VObj []))
             (state (ensureForecastLoaded print_integer (steady_network (VObj []))
                       (fresh_state berlin))))
  = [].
Proof.
  exact (f_equal fetched
           (forecast_fetched_once print_integer (steady_network (VObj []))
              (fresh_state berlin) eq_refl eq_refl)).
Defined.

Lemma falsy_forecast_fetched_again_witness :
  fetched (ensureForecastLoaded print_integer (steady_network VNull)
             (state (ensureForecastLoaded print_integer (steady_network VNull)
                       (fresh_state berlin))))
  = [(lat berlin, lon berlin)].
Proof.
  exact (proj2 (proj2
           (falsy_forecast_fetched_again print_integer (steady_network VNull)
              (fresh_state berlin) berlin (Fin 52.52001) (Fin 13.405) VNull
              eq_refl eq_refl eq_refl eq_refl eq_refl eq_refl))).
Defined.

Lemma forecast_keyed_by_four_decimals_witness :
  fetched (ensureForecastLoaded print_integer (steady_network (VObj []))
             (move_to
                (state (ensureForecastLoaded print_integer (steady_network (VObj []))
                          (fresh_state berlin)))
                berlin_nearby))
  = [].
Proof.
  exact (f_equal fetched
           (proj1 (forecast_keyed_by_four_decimals print_integer
                     (steady_network (VObj []))
                     (state (ensureForecastLoaded print_integer
                               (steady_network (VObj [])) (fresh_state berlin)))
                     berlin_nearby (Fin 52.52004) (Fin 13.40503) "52.5200,13.4050"
                     eq_refl eq_refl eq_refl eq_refl) eq_refl)).
Defined.

End CacheWitnesses.

(** * The proxy routes of the backend *)

Section ServerFacts.

Import Text Server.

Ltac split_char c :=
  let b0 := fresh in let b1 := fresh in let b2 := fresh in let b3 := fresh in
  let b4 := fresh in let b5 := fresh in let b6 := fresh in let b7 := fresh in
  destruct c as [b0 b1 b2 b3 b4 b5 b6 b7];
  destruct b0, b1, b2, b3, b4, b5, b6, b7.

Ltac ws_step :=
  first [ left; reflexivity
        | right; eexists; split; [|simpl; reflexivity]; simpl; lia ].

(** Skipping white space either changes nothing or continues on a shorter
    rest. *)
Lemma skip_ws_step (s : string) :
  skip_ws s = s
  \/ exists r, (String.length r < String.length s)%nat /\ skip_ws s = skip_ws r.
Proof.
  destruct s as [|c s]; [left; reflexivity|].
  split_char c; try ws_step;
    (destruct s as [|c s]; [left; reflexivity|]);
    split_char c; try ws_step;
    (destruct s as [|c s]; [left; reflexivity|]);
    split_char c; ws_step.
Qed.

Lemma skip_ws_idempotent (s : string) : skip_ws (skip_ws s) = skip_ws s.
Proof.
  remember (String.length s) as n eqn:N. revert s N.
  induction n as [n IH] using lt_wf_ind. intros s N.
  destruct (skip_ws_step s) as [E | (r & L & E)].
  - now rewrite !E.
  - rewrite E. apply (IH (String.length r)); [lia | reflexivity].
Qed.

Lemma trim_end_blank (s : string) : trim_end s = "" <-> skip_ws s = "".
Proof.
  destruct s as [|c r]; [split; reflexivity|].
  cbn [trim_end]. destruct (skip_ws (String c r)); split; auto; discriminate.
Qed.

(** A text trims to nothing exactly when it is white space only. *)
Lemma trim_blank (s : string) : trim s = "" <-> skip_ws s = "".
Proof.
  unfold trim. rewrite trim_end_blank. now rewrite skip_ws_idempotent.
Qed.

Lemma hex_digit_unreserved (k : nat) : (k < 16)%nat -> unreserved (hex_digit k) = true.
Proof.
  intros H. do 16 (destruct k as [|k]; [reflexivity|]). lia.
Qed.

Lemma nat_of_ascii_bound (c : ascii) : (nat_of_ascii c < 256)%nat.
Proof. split_char c; vm_compute; lia. Qed.

(** X23: the encoding of a URL component consists of unreserved characters
    and percent signs only; so no text put into a query can add a parameter
    or end the query: the encoding has no ampersand, equals sign, question
    mark, hash, slash or space. *)
Theorem encodeURIComponent_safe (s : string) (c : ascii) :
  In c (list_ascii_of_string (encodeURIComponent s)) ->
  (unreserved c = true \/ c = "%"%char)
  /\ ~ In c ["&"; "="; "?"; "#"; "/"; " "; "+"]%char.
Proof.
  intros H.
  assert (U : unreserved c = true \/ c = "%"%char).
  { induction s as [|d s IH]; [contradiction|].
    cbn [encodeURIComponent] in H. destruct (unreserved d) eqn:E.
    - cbn [list_ascii_of_string In] in H. destruct H as [<-|H]; auto.
    - cbn [list_ascii_of_string In] in H.
      pose proof (nat_of_ascii_bound d) as B.
      destruct H as [<-|[<-|[<-|H]]]; auto; left; apply hex_digit_unreserved.
      + apply Nat.Div0.div_lt_upper_bound. exact B.
      + apply Nat.mod_upper_bound. lia. }
  split; [exact U|]. intros I. cbn [In] in I.
  destruct U as [U| ->];
    repeat (destruct I as [I|I]; [try rewrite <- I in U; discriminate|]); exact I.
Qed.

Lemma encodeURIComponent_safe_witness :
  ~ In "&"%char (list_ascii_of_string (encodeURIComponent "Rock & Roll")).
Proof.
  intros H.
  destruct (encodeURIComponent_safe "Rock & Roll" "&"%char H) as [_ N].
  apply N. simpl. tauto.
Defined.

Variable NumberToString : num -> string.
Variable KEY : string.

(** X24: the geocode route sends nothing to the provider for a query without
    [q] or with a [q] of white space only and answers 400; for every other
    text it sends one request whose [q] is the trimmed text, encoded, and
    whose [limit] is not-a-number or at most 5, and 5 when the query has no
    limit. *)
Theorem geocode_request (query : value) :
  let limit := getProp query "limit" in
  (getProp query "q" = VUndef ->
   geocode NumberToString KEY query = Respond (Json 400 (error_body "Missing q")))
  /\ (forall s, getProp query "q" = VStr s ->
      (skip_ws s = "" ->
       geocode NumberToString KEY query = Respond (Json 400 (error_body "Missing q")))
      /\ (skip_ws s <> "" ->
          exists n,
            geocode NumberToString KEY query
            = Fetch ("http://api.openweathermap.org/geo/1.0/direct"
                     ++ "?q=" ++ encodeURIComponent (trim s)
                     ++ "&limit=" ++ NumberToString n
                     ++ "&appid=" ++ KEY)%string
            /\ (isNaN n = true \/ (n <=? 5)%num = true)
            /\ (truthy limit = false -> n = 5%num))).
Proof.
  intros limit. split.
  - intros Q. unfold geocode. rewrite Q. reflexivity.
  - intros s Q. unfold geocode. rewrite Q.
    assert (E : or_else (VStr s) (VStr "") = VStr s) by (destruct s; reflexivity).
    rewrite E. cbn [ToString]. split.
    + intros B. apply trim_blank in B. now rewrite B.
    + intros B. destruct (trim s) eqn:T; [apply trim_blank in T; contradiction|].
      eexists. split; [reflexivity|]. fold limit. split.
      * unfold Num.min.
        destruct (ToNumber (or_else limit (VNum 5))) as [| |q|]; cbn; auto.
        right. destruct (Qle_bool q 5) eqn:L; cbn; [exact L | reflexivity].
      * intros F. unfold or_else. rewrite F. reflexivity.
Qed.


(** X25: the weather route sends a request only with a latitude and a
    longitude that are finite numbers: an absent, non-numeric or infinite
    one is answered with 400.  A coordinate given as an empty or blank text
    reads as 0 and is accepted. *)
Theorem weather_request (query : value) :
  let lat := ToNumber (getProp query "lat") in
  let lon := ToNumber (getProp query "lon") in
  (forall url, weather NumberToString KEY query = Fetch url ->
     exists a b : Q, lat = Fin a /\ lon = Fin b)
  /\ (isFinite lat = false \/ isFinite lon = false ->
      weather NumberToString KEY query
      = Respond (Json 400 (error_body "Missing/invalid lat or lon")))
  /\ (getProp query "lat" = VUndef \/ getProp query "lon" = VUndef ->
      weather NumberToString KEY query
      = Respond (Json 400 (error_body "Missing/invalid lat or lon")))
  /\ (forall s, getProp query "lat" = VStr s -> skip_ws s = "" -> lat = 0%num).
Proof.
  intros lat lon. unfold weather. fold lat lon.
  refine (conj _ (conj _ (conj _ _))).
  - intros url. destruct lat, lon; cbn; try discriminate. intros _. eauto.
  - intros [H|H]; rewrite H; cbn [negb orb]; [reflexivity|].
    now rewrite orb_true_r.
  - unfold lat, lon. intros [H|H]; rewrite H; cbn [ToNumber isFinite negb orb];
      [reflexivity|]. now rewrite orb_true_r.
  - intros s E B. unfold lat. rewrite E. cbn [ToNumber]. unfold StringToNumber.
    now rewrite B.
Qed.

End ServerFacts.

Section ServerWitnesses.

Import Text Server.

Lemma geocode_request_witness :
  geocode Fixture.print_integer "k" (VObj [("q", VStr " Rock & Roll ")])
  = Fetch "http://api.openweathermap.org/geo/1.0/direct?q=Rock%20%26%20Roll&limit=5&appid=k".
Proof.
  destruct (proj2 (geocode_request Fixture.print_integer "k"
                     (VObj [("q", VStr " Rock & Roll ")]))
              " Rock & Roll " eq_refl) as [_ F].
  destruct F as (n & E & _ & D); [discriminate|].
  rewrite E, (D eq_refl). reflexivity.
Defined.

Lemma weather_request_witness :
  weather Fixture.print_integer "k" (VObj [("lat", VStr "abc"); ("lon", VStr "13")])
  = Respond (Json 400 (error_body "Missing/invalid lat or lon")).
Proof.
  apply (proj1 (proj2 (weather_request Fixture.print_integer "k"
                         (VObj [("lat", VStr "abc"); ("lon", VStr "13")])))).
  left. reflexivity.
Defined.

End ServerWitnesses.
